(** * AIGPT: the Streamlit chat front end [app.py]

    A shallow embedding of one execution of the script [app.py] (Streamlit
    re-executes the whole script on every UI event and on every
    [st.rerun()]), together with the credential store and the chat store it
    talks to.

    - Python values kept in [st.session_state] are typed after the only
      writes the script performs: [authenticated] holds a bool, [username],
      [name] and [chat_id] hold [None] or a [str].  An absent key is the
      outer [None] of each field.
    - [st.stop()], [st.rerun()] and Python exceptions end the execution of
      the script early; they are the [Halt] results of the monad [M].
    - Every UI output, every store call (with the store it was issued
      against) and every invocation of the agent executor is appended to a
      log, so that ordering properties can be stated.
    - [uuid.uuid4()] and [agent_executor.invoke] are external: the first is
      a stream of 128-bit numbers, the second a function of the executor's
      configuration and the input.  The [logging] calls are not modelled. *)

From Stdlib Require Import NArith Lia Ascii String.
From stdpp Require Import gmap strings list.

Local Open Scope string_scope.

(* ===================================================================== *)
(** * Python strings *)
(* ===================================================================== *)

Module Py.

(** [s[:k]] *)
Definition prefix (k : nat) (s : string) : string := String.substring 0 k s.

(** Truthiness of a [str]. *)
Definition truthy (s : string) : bool :=
  match s with EmptyString => false | String _ _ => true end.

(** [str(x)] for a value that is [None] or a [str], as in an f-string. *)
Definition str (v : option string) : string :=
  match v with None => "None" | Some s => s end.

(** ASCII white space, as removed by [str.strip()]. *)
Definition is_space (c : ascii) : bool :=
  let n := Ascii.nat_of_ascii c in
  (n =? 32)%nat || ((9 <=? n)%nat && (n <=? 13)%nat)
  || ((28 <=? n)%nat && (n <=? 31)%nat).

Fixpoint lstrip (s : string) : string :=
  match s with
  | EmptyString => EmptyString
  | String c s' => if is_space c then lstrip s' else s
  end.

(** [rstrip] keeps a character when it is not white space or when
    something that is kept follows it. *)
Fixpoint rstrip (s : string) : string :=
  match s with
  | EmptyString => EmptyString
  | String c s' =>
      match rstrip s' with
      | EmptyString => if is_space c then EmptyString else String c EmptyString
      | r => String c r
      end
  end.

Definition strip (s : string) : string := rstrip (lstrip s).

Definition upper_ascii (c : ascii) : ascii :=
  let n := Ascii.nat_of_ascii c in
  if (97 <=? n)%nat && (n <=? 122)%nat then Ascii.ascii_of_nat (n - 32) else c.

Fixpoint upper (s : string) : string :=
  match s with
  | EmptyString => EmptyString
  | String c s' => String (upper_ascii c) (upper s')
  end.

(** [uuid.uuid4().hex]: 32 lower-case hexadecimal digits, most
    significant first. *)
Definition hex_digit (d : N) : ascii :=
  match String.get (N.to_nat d) "0123456789abcdef" with
  | Some c => c
  | None => "0"%char
  end.

Fixpoint hex_of (k : nat) (n : N) : string :=
  match k with
  | O => EmptyString
  | S k' => String (hex_digit ((n / 16 ^ N.of_nat k') mod 16)) (hex_of k' n)
  end.

Definition uuid_hex (n : N) : string := hex_of 32 n.

(** [dict(pairs).get(k, default)]: a later pair overrides an earlier one. *)
Fixpoint dict_get {V : Type} (pairs : list (string * V)) (k : string) (default : V) : V :=
  match pairs with
  | [] => default
  | (k', v) :: rest => dict_get rest k (if String.eqb k' k then v else default)
  end.

End Py.

(* ===================================================================== *)
(** * The stores of [utils/dbutils.py] *)
(* ===================================================================== *)

Record User := mkUser {
  user_username : string;
  user_full_name : string;
  user_email : string;
  user_password_hash : string
}.

Record Chat := mkChat {
  chat_chat_id : string;
  chat_owner_username : string;
  chat_display_name : option string
}.

Record Message := mkMessage {
  msg_chat_id : string;
  msg_role : string;
  msg_content : string
}.

(** Users are keyed by their unique username; chats are kept in creation
    order and messages in insertion order. *)
Record Store := mkStore {
  st_users : gmap string User;
  st_chats : list Chat;
  st_messages : list Message
}.

Definition empty_store : Store := mkStore ∅ [] [].

Module Db.

(** The last [n] elements of a list, in their order. *)
Definition last_n {A : Type} (n : nat) (l : list A) : list A :=
  drop (length l - n) l.

(** Modelled from the spec: [get_user_by_username] of utils/dbutils.py,
    which is not part of the sources; [get_user(username) -> User |
    NotFound]. *)
Definition get_user_by_username (username : string) (s : Store) : option User :=
  st_users s !! username.

(** Modelled from the spec: [verify_user_credentials] of utils/dbutils.py;
    it fails closed (returns false) on a missing user and on a hash
    mismatch.  [hash] is the password hashing primitive. *)
Definition verify_user_credentials (hash : string → string)
    (username password : string) (s : Store) : bool :=
  match st_users s !! username with
  | Some u => bool_decide (user_password_hash u = hash password)
  | None => false
  end.

(** Modelled from the spec: [create_user] of utils/dbutils.py; it stores
    the hash of the password and refuses a username that is taken. *)
Definition create_user (hash : string → string)
    (username full_name email password : string) (s : Store) : bool * Store :=
  match st_users s !! username with
  | Some _ => (false, s)
  | None =>
      (true,
       mkStore (<[username := mkUser username full_name email (hash password)]> (st_users s))
               (st_chats s) (st_messages s))
  end.

(** The owner of a chat, when the chat exists. *)
Fixpoint find_chat (chat_id : string) (cs : list Chat) : option Chat :=
  match cs with
  | [] => None
  | c :: cs' => if String.eqb (chat_chat_id c) chat_id then Some c else find_chat chat_id cs'
  end.

Definition chat_owner (chat_id : string) (s : Store) : option string :=
  chat_owner_username <$> find_chat chat_id (st_chats s).

(** Modelled from the spec: [insert_message] of utils/dbutils.py.  It
    appends, after validating that [chat_id] belongs to [username]
    (Forbidden otherwise).  No function of the script creates a chat, so
    the first message written to a chat identifier that does not exist
    creates the chat for [username]. *)
Definition insert_message (username chat_id role content : string) (s : Store)
    : bool * Store :=
  let m := mkMessage chat_id role content in
  match chat_owner chat_id s with
  | Some o =>
      if String.eqb o username
      then (true, mkStore (st_users s) (st_chats s) (st_messages s ++ [m]))
      else (false, s)
  | None =>
      (true, mkStore (st_users s) (st_chats s ++ [mkChat chat_id username None])
                     (st_messages s ++ [m]))
  end.

(** All messages of a chat, oldest first. *)
Definition chat_messages (chat_id : string) (s : Store) : list (string * string) :=
  map (λ m, (msg_role m, msg_content m))
      (List.filter (λ m, String.eqb (msg_chat_id m) chat_id) (st_messages s)).

(** Modelled from the spec: [get_chat_history] of utils/dbutils.py; the
    most recent [n] messages of the chat, in chronological order. *)
Definition get_chat_history (chat_id : string) (n : nat) (s : Store)
    : list (string * string) :=
  last_n n (chat_messages chat_id s).

(** Modelled from the spec: [get_all_chat_ids_for_user] of
    utils/dbutils.py; the chats of the user as (chat_id, display_name), in
    creation order. *)
Definition get_all_chat_ids_for_user (username : string) (s : Store)
    : list (string * option string) :=
  map (λ c, (chat_chat_id c, chat_display_name c))
      (List.filter (λ c, String.eqb (chat_owner_username c) username) (st_chats s)).

Definition rename_chat (chat_id : string) (new_name : option string) (c : Chat) : Chat :=
  if String.eqb (chat_chat_id c) chat_id
  then mkChat (chat_chat_id c) (chat_owner_username c) new_name
  else c.

(** Modelled from the spec: [update_chat_name] of utils/dbutils.py;
    [success | NotFound]. *)
Definition update_chat_name (chat_id : string) (new_name : option string) (s : Store)
    : bool * Store :=
  match find_chat chat_id (st_chats s) with
  | Some _ =>
      (true, mkStore (st_users s) (map (rename_chat chat_id new_name) (st_chats s))
                     (st_messages s))
  | None => (false, s)
  end.

(** Modelled from the spec: [delete_chat] of utils/dbutils.py; [success |
    NotFound], the messages of the chat are deleted with it. *)
Definition delete_chat (chat_id : string) (s : Store) : bool * Store :=
  match find_chat chat_id (st_chats s) with
  | Some _ =>
      (true,
       mkStore (st_users s)
               (List.filter (λ c, negb (String.eqb (chat_chat_id c) chat_id)) (st_chats s))
               (List.filter (λ m, negb (String.eqb (msg_chat_id m) chat_id)) (st_messages s)))
  | None => (false, s)
  end.

End Db.

(* ===================================================================== *)
(** * Session state, widgets, effects *)
(* ===================================================================== *)

(** [st.session_state]: the outer [None] of a field is an absent key. *)
Record SessionState := mkSession {
  ss_authenticated : option bool;
  ss_username : option (option string);
  ss_name : option (option string);
  ss_chat_id : option (option string)
}.

(** A session that has just been opened, and [st.session_state.clear()]. *)
Definition empty_session : SessionState := mkSession None None None None.

(** What the widgets return during one execution of the script. *)
Record Widgets := mkWidgets {
  username_input : string;
  password_input : string;
  login_btn : bool;
  new_username : string;
  new_name : string;
  new_email : string;
  new_password : string;
  confirm_password : string;
  register_btn : bool;
  (** the option chosen in the radio of the side bar *)
  chosen_idx : nat;
  (** the text typed in the rename box, [None] when left at its default *)
  rename_text : option string;
  save_name_btn : bool;
  delete_chat_btn : bool;
  new_chat_btn : bool;
  logout_btn : bool;
  (** [st.chat_input()] *)
  chat_input : option string
}.

(** The widgets during the execution started by [st.rerun()]: the values
    of text inputs and of the radio are kept, a button reports a click only
    in the execution the click started, and so does the chat input. *)
Definition after_rerun (w : Widgets) : Widgets :=
  mkWidgets (username_input w) (password_input w) false
            (new_username w) (new_name w) (new_email w) (new_password w)
            (confirm_password w) false
            (chosen_idx w) (rename_text w) false false false false None.

Inductive Ui :=
  | Title (s : string)
  | Subheader (s : string)
  | SidebarSubheader (s : string)
  | SidebarRadio (label : string) (labels : list string)
  | UiError (s : string)
  | UiSuccess (s : string)
  | UiWarning (s : string)
  | Caption (s : string)
  | ChatMessage (role msg : string).

Inductive LcMessage :=
  | HumanMessage (content : string)
  | AIMessage (content : string).

Record ChatModel := mkChatModel { cm_model : string; cm_temperature : nat }.

Inductive Tool := TavilySearchResults (k : nat).

Record PromptTemplate := mkPrompt {
  input_variables : list string;
  template : string
}.

(** The arguments of [AgentExecutor.from_agent_and_tools], with the agent
    given by its model and prompt and the memory by its messages. *)
Record AgentExecutor := mkAgentExecutor {
  ae_llm : ChatModel;
  ae_prompt : PromptTemplate;
  ae_tools : list Tool;
  ae_memory : list LcMessage;
  ae_verbose : bool;
  ae_handle_parsing_errors : bool;
  ae_max_iterations : nat;
  ae_max_execution_time : nat;
  ae_early_stopping_method : string;
  ae_prompt_input_keys : list string
}.

Inductive StoreCall :=
  | VerifyUserCredentials (username password : string)
  | GetUserByUsername (username : string)
  | CreateUser (username full_name email password : string)
  | GetAllChatIdsForUser (username : string)
  | InsertMessage (username chat_id role content : string)
  | GetChatHistory (chat_id : string) (n : nat)
  | UpdateChatName (chat_id : string) (new_name : option string)
  | DeleteChat (chat_id : string).

(** An effect of the script.  A store call carries the store it was issued
    against; an invocation of the agent carries the configuration of the
    executor, the input, the store at that moment and the final answer
    ([None] when the invocation raised). *)
Inductive Event :=
  | EUi (u : Ui)
  | EStore (c : StoreCall) (before : Store)
  | EAgent (ex : AgentExecutor) (input : string) (at_store : Store) (output : option string).

Inductive Exn :=
  | AttributeError (key : string)
  | TypeError
  | IndexError
  | AgentFailure.

(** How an execution of the script ends before its last line. *)
Inductive Halt :=
  | Stop
  | Rerun
  | Raise (e : Exn).

Inductive Result (A : Type) :=
  | Val (a : A)
  | Halted (h : Halt).
Arguments Val {A} a.
Arguments Halted {A} h.

(** What lies outside of the script. *)
Record Env := mkEnv {
  (** [os.environ.get("APP_STATUS")], [None] when the variable is not set *)
  environ_app_status : option string;
  (** the value of the k-th call of [uuid.uuid4()] *)
  uuid4 : nat → N;
  (** the password hashing primitive of the credential store *)
  password_hash : string → string;
  (** [agent_executor.invoke]: the final answer, or [None] when it raises *)
  agent_invoke : AgentExecutor → string → option string
}.

Record World := mkWorld {
  w_store : Store;
  w_session : SessionState;
  (** number of calls of [uuid.uuid4()] so far *)
  w_uuid : nat;
  (** the effects so far, the most recent first *)
  w_log : list Event
}.

Definition M (A : Type) : Type := World → Result A * World.

Definition ret {A} (a : A) : M A := λ w, (Val a, w).

Definition bind {A B} (m : M A) (k : A → M B) : M B :=
  λ w, match m w with
       | (Val a, w') => k a w'
       | (Halted h, w') => (Halted h, w')
       end.

Declare Scope script_scope.
Delimit Scope script_scope with script.
Notation "'let*' x := m 'in' k" := (bind m (λ x, k))
  (at level 10, x name, m at level 100, k at level 200) : script_scope.
Notation "m ;;; k" := (bind m (λ _, k))
  (at level 100, k at level 200, right associativity) : script_scope.
Local Open Scope script_scope.

Definition halt {A} (h : Halt) : M A := λ w, (Halted h, w).

Definition emit (e : Event) : M unit :=
  λ w, (Val tt, mkWorld (w_store w) (w_session w) (w_uuid w) (e :: w_log w)).

Definition ui (u : Ui) : M unit := emit (EUi u).

Definition get_session : M SessionState := λ w, (Val (w_session w), w).

Definition put_session (s : SessionState) : M unit :=
  λ w, (Val tt, mkWorld (w_store w) s (w_uuid w) (w_log w)).

Definition get_store : M Store := λ w, (Val (w_store w), w).

Definition put_store (s : Store) : M unit :=
  λ w, (Val tt, mkWorld s (w_session w) (w_uuid w) (w_log w)).

(** Reading an attribute of [st.session_state] raises when the key is
    absent. *)
Definition attr {A} (key : string) (field : SessionState → option A) : M A :=
  let* s := get_session in
  match field s with
  | Some v => ret v
  | None => halt (Raise (AttributeError key))
  end.

Definition set_authenticated (b : bool) : M unit :=
  let* s := get_session in
  put_session (mkSession (Some b) (ss_username s) (ss_name s) (ss_chat_id s)).

Definition set_username (v : option string) : M unit :=
  let* s := get_session in
  put_session (mkSession (ss_authenticated s) (Some v) (ss_name s) (ss_chat_id s)).

Definition set_name (v : option string) : M unit :=
  let* s := get_session in
  put_session (mkSession (ss_authenticated s) (ss_username s) (Some v) (ss_chat_id s)).

Definition set_chat_id (v : option string) : M unit :=
  let* s := get_session in
  put_session (mkSession (ss_authenticated s) (ss_username s) (ss_name s) (Some v)).

(** The functions of the stores take a [str]; passing [None] is outside of
    their contract and ends the execution. *)
Definition as_str (v : option string) : M string :=
  match v with
  | Some s => ret s
  | None => halt (Raise TypeError)
  end.

(** [uuid.uuid4().hex[:8]] *)
Definition uuid4_hex8 (env : Env) : M string :=
  λ w, (Val (Py.prefix 8 (Py.uuid_hex (uuid4 env (w_uuid w)))),
        mkWorld (w_store w) (w_session w) (S (w_uuid w)) (w_log w)).

(** A store call that only reads. *)
Definition query {A} (c : StoreCall) (f : Store → A) : M A :=
  let* s := get_store in
  emit (EStore c s) ;;;
  ret (f s).

(** A store call that may write; its result is the success signal. *)
Definition command (c : StoreCall) (f : Store → bool * Store) : M bool :=
  let* s := get_store in
  emit (EStore c s) ;;;
  put_store (snd (f s)) ;;;
  ret (fst (f s)).

(* ===================================================================== *)
(** * The script *)
(* ===================================================================== *)

(** [APP_STATUS = os.environ.get("APP_STATUS", "ON")] *)
Definition APP_STATUS (env : Env) : string :=
  match environ_app_status env with
  | Some v => v
  | None => "ON"
  end.

(** [APP_STATUS.strip().upper() != "ON"] *)
Definition app_is_down (env : Env) : bool :=
  negb (String.eqb (Py.upper (Py.strip (APP_STATUS env))) "ON").

Definition unavailable_message : string :=
  "🚫 The app is currently down. Please try again later.".

(** Lines 44-47. *)
Definition init_session (s : SessionState) : SessionState :=
  match ss_authenticated s with
  | Some _ => s
  | None => mkSession (Some false) (Some None) (Some None) (ss_chat_id s)
  end.

Definition init_session_state : M unit :=
  let* s := get_session in
  put_session (init_session s).

(** Lines 52-54. *)
Definition availability_control (env : Env) : M unit :=
  if app_is_down env
  then ui (UiError unavailable_message) ;;; halt Stop
  else ret tt.

(** [f"{username}_{uuid.uuid4().hex[:8]}"] *)
Definition new_chat_id (env : Env) (username : option string) : M string :=
  let* h := uuid4_hex8 env in
  ret (Py.str username +:+ "_" +:+ h).

(** Lines 59-75. *)
Definition login (env : Env) (w : Widgets) : M unit :=
  ui (Title "AIGPT") ;;;
  ui (Subheader "Login") ;;;
  let* verified :=
    (if login_btn w
     then query (VerifyUserCredentials (username_input w) (password_input w))
                (Db.verify_user_credentials (password_hash env)
                   (username_input w) (password_input w))
     else ret false) in
  if verified then
    let* user := query (GetUserByUsername (username_input w))
                       (Db.get_user_by_username (username_input w)) in
    set_authenticated true ;;;
    match user with
    | None => halt (Raise TypeError)
    | Some user =>
        set_username (Some (user_username user)) ;;;
        set_name (Some (user_full_name user)) ;;;
        let* cid := new_chat_id env (Some (user_username user)) in
        set_chat_id (Some cid) ;;;
        halt Rerun
    end
  else if login_btn w then
    ui (UiError "Incorrect username or password.")
  else ret tt.

(** Lines 80-101. *)
Definition registration (env : Env) (w : Widgets) : M unit :=
  if register_btn w then
    if negb (String.eqb (new_password w) (confirm_password w)) then
      ui (UiError "Passwords do not match.")
    else
      let* existing := query (GetUserByUsername (new_username w))
                             (Db.get_user_by_username (new_username w)) in
      match existing with
      | Some _ => ui (UiError "Username already exists.")
      | None =>
          let* created :=
            command (CreateUser (new_username w) (new_name w) (new_email w) (new_password w))
                    (Db.create_user (password_hash env) (new_username w) (new_name w)
                       (new_email w) (new_password w)) in
          if created
          then ui (UiSuccess "User created successfully.")
          else ui (UiError "User creation failed.")
      end
  else ret tt.

Definition greeting_no_chats (username : option string) : string :=
  "👋 Hello! " +:+ Py.str username +:+ ", i am your AI assistant. How can I help you today?".

Definition greeting_new_chat (username : option string) : string :=
  "👋 Hello! " +:+ Py.str username +:+ ", i am your AIGPT. How can I help you today?".

(** [insert_message(st.session_state.username, chat_id, role, content)] *)
Definition insert_message (username : option string) (chat_id role content : string)
    : M bool :=
  let* u := as_str username in
  command (InsertMessage u chat_id role content) (Db.insert_message u chat_id role content).

(** [get_chat_history(st.session_state.chat_id, n=n)] *)
Definition get_chat_history (chat_id : option string) (n : nat) : M (list (string * string)) :=
  let* c := as_str chat_id in
  query (GetChatHistory c n) (Db.get_chat_history c n).

(** Line 111. *)
Definition chat_label (entry : string * option string) : string :=
  match entry with
  | (cid, Some name) =>
      if Py.truthy name
      then name +:+ " (" +:+ Py.prefix 8 cid +:+ ")"
      else Py.prefix 14 cid
  | (cid, None) => Py.prefix 14 cid
  end.

(** [st.sidebar.radio] over [range(n)]: the chosen option, the first one
    when nothing in range has been chosen. *)
Definition radio (n chosen : nat) : nat :=
  if (chosen <? n)%nat then chosen else 0%nat.

(** Lines 164-166. *)
Definition to_langchain (m : string * string) : LcMessage :=
  if String.eqb (fst m) "user" then HumanMessage (snd m) else AIMessage (snd m).

Definition get_langchain_messages (chat_id : option string) : M (list LcMessage) :=
  let* raw := get_chat_history chat_id 3 in
  ret (map to_langchain raw).

Definition llm : ChatModel := mkChatModel "gemini-2.0-flash-exp" 0.

Definition tools : list Tool := [TavilySearchResults 1].

Definition prompt : PromptTemplate :=
  mkPrompt ["input"; "agent_scratchpad"; "tools"; "tool_names"; "chat_history"]
"
    You are AIGPT — a witty, sharp, and slightly sarcastic AI assistant. You use tools only when strictly necessary, and rely on memory whenever possible.

    ⚠️ STRICT INSTRUCTIONS:
    - You must strictly follow the format below.
    - Never include both a `Final Answer` and an `Action` in the same step.
    - If you decide to take an Action, stop after the `Observation:` and think again before producing the final answer.
    - Only provide the `Final Answer` once all necessary actions and observations are complete.

    -------------------
    FORMAT (MANDATORY):

    Question: {input}
    Thought: Reason about what to do next.
    Action: (if needed, choose one from [{tool_names}])
    Action Input: input for the selected tool
    Observation: result of the action
    ... (repeat Thought → Action → Action Input → Observation if needed)
    Thought: I now know the final answer.
    Final Answer: your complete and final answer
    -------------------

    💡 Use `TavilySearchResults` ONLY if the answer truly requires current or external internet-based knowledge.

    🧠 Memory (chat history):
    {chat_history}

    🧰 Tools available:
    {tools}

    Begin!

    Question: {input}
    Thought: {agent_scratchpad}
    ".

(** Lines 216-227. *)
Definition agent_executor (memory : list LcMessage) : AgentExecutor :=
  mkAgentExecutor llm prompt tools memory
    true       (* verbose *)
    true       (* handle_parsing_errors *)
    3          (* max_iterations *)
    30         (* max_execution_time *)
    "force"    (* early_stopping_method *)
    ["input"; "chat_history"].

(** [agent_executor.invoke({"input": user_input}, ...)["output"]] *)
Definition invoke (env : Env) (ex : AgentExecutor) (input : string) : M string :=
  let* s := get_store in
  emit (EAgent ex input s (agent_invoke env ex input)) ;;;
  match agent_invoke env ex input with
  | Some output => ret output
  | None => halt (Raise AgentFailure)
  end.

(** Lines 238-247. *)
Definition handle_input (env : Env) (w : Widgets) (ex : AgentExecutor) : M unit :=
  match chat_input w with
  | Some user_input =>
      if Py.truthy user_input then
        ui (ChatMessage "user" user_input) ;;;
        let* username := attr "username" ss_username in
        let* chat_id := attr "chat_id" ss_chat_id in
        let* c := as_str chat_id in
        insert_message username c "user" user_input ;;;
        let* final_answer := invoke env ex user_input in
        ui (ChatMessage "assistant" final_answer) ;;;
        let* username := attr "username" ss_username in
        let* chat_id := attr "chat_id" ss_chat_id in
        let* c := as_str chat_id in
        insert_message username c "assistant" final_answer ;;;
        ret tt
      else ret tt
  | None => ret tt
  end.

(** Lines 114-119. *)
Definition create_first_chat (env : Env) : M unit :=
  ui (UiWarning "No chats found. Click ➕ New Chat to start.") ;;;
  let* username := attr "username" ss_username in
  let* new_id := new_chat_id env username in
  set_chat_id (Some new_id) ;;;
  let* username := attr "username" ss_username in
  insert_message username new_id "assistant" (greeting_no_chats username) ;;;
  halt Rerun.

(** Lines 124-135. *)
Definition manage_chat (w : Widgets) (chat_list : list (string * option string))
    (selected_chat : string) : M unit :=
  let new_name :=
    match rename_text w with
    | Some text => Some text
    | None => Py.dict_get chat_list selected_chat (Some "")
    end in
  (if save_name_btn w then
     let* ok := command (UpdateChatName selected_chat new_name)
                        (Db.update_chat_name selected_chat new_name) in
     if ok then ui (UiSuccess "Chat name updated.") ;;; halt Rerun else ret tt
   else ret tt) ;;;
  if delete_chat_btn w then
    let* ok := command (DeleteChat selected_chat) (Db.delete_chat selected_chat) in
    if ok then
      set_chat_id None ;;;
      ui (UiSuccess "Chat deleted.") ;;;
      halt Rerun
    else ret tt
  else ret tt.

(** Lines 138-142. *)
Definition new_chat (env : Env) (w : Widgets) : M unit :=
  if new_chat_btn w then
    let* username := attr "username" ss_username in
    let* new_id := new_chat_id env username in
    set_chat_id (Some new_id) ;;;
    let* username := attr "username" ss_username in
    insert_message username new_id "assistant" (greeting_new_chat username) ;;;
    halt Rerun
  else ret tt.

(** Lines 145-147. *)
Definition logout (w : Widgets) : M unit :=
  if logout_btn w then put_session empty_session ;;; halt Rerun else ret tt.

(** Lines 150-154. *)
Definition use_selected_chat (env : Env) (selected_chat : string) : M unit :=
  let* s := get_session in
  match ss_chat_id s with
  | None =>
      if Py.truthy selected_chat then set_chat_id (Some selected_chat)
      else
        let* username := attr "username" ss_username in
        let* fresh := new_chat_id env username in
        set_chat_id (Some fresh)
  | Some current =>
      if Py.truthy selected_chat
         && negb (bool_decide (Some selected_chat = current))
      then set_chat_id (Some selected_chat) ;;; halt Rerun
      else ret tt
  end.

(** Lines 157-159. *)
Definition header : M unit :=
  ui (Title "🤖 AIGPT") ;;;
  let* username := attr "username" ss_username in
  ui (UiSuccess ("You are logged in as " +:+ Py.str username +:+ ".")) ;;;
  let* chat_id := attr "chat_id" ss_chat_id in
  ui (Caption ("🧾 Chat ID: `" +:+ Py.str chat_id +:+ "`")).

Fixpoint display (history : list (string * string)) : M unit :=
  match history with
  | [] => ret tt
  | (role, msg) :: rest => ui (ChatMessage role msg) ;;; display rest
  end.

(** Lines 232-233. *)
Definition display_chat_history : M unit :=
  let* chat_id := attr "chat_id" ss_chat_id in
  let* history := get_chat_history chat_id 10 in
  display history.

(** Lines 106-247. *)
Definition authenticated_view (env : Env) (w : Widgets) : M unit :=
  let* name := attr "name" ss_name in
  ui (SidebarSubheader ("👤 " +:+ Py.str name)) ;;;
  let* username := attr "username" ss_username in
  let* u := as_str username in
  let* chat_list := query (GetAllChatIdsForUser u) (Db.get_all_chat_ids_for_user u) in
  let chat_labels := map chat_label chat_list in
  let chat_ids := map fst chat_list in
  (match chat_ids with
   | [] => create_first_chat env
   | _ :: _ => ret tt
   end) ;;;
  ui (SidebarRadio "🗂 Your Chats" chat_labels) ;;;
  let selected_chat_idx := radio (length chat_ids) (chosen_idx w) in
  let* selected_chat :=
    (match chat_ids !! selected_chat_idx with
     | Some c => ret c
     | None => halt (Raise IndexError)
     end) in
  manage_chat w chat_list selected_chat ;;;
  new_chat env w ;;;
  logout w ;;;
  use_selected_chat env selected_chat ;;;
  header ;;;
  let* chat_id := attr "chat_id" ss_chat_id in
  let* memory := get_langchain_messages chat_id in
  let ex := agent_executor memory in
  display_chat_history ;;;
  handle_input env w ex.

(** The whole script, lines 44-247. *)
Definition script (env : Env) (w : Widgets) : M unit :=
  init_session_state ;;;
  availability_control env ;;;
  let* authenticated := attr "authenticated" ss_authenticated in
  (if negb authenticated then login env w else ret tt) ;;;
  let* authenticated := attr "authenticated" ss_authenticated in
  (if negb authenticated then registration env w else ret tt) ;;;
  let* authenticated := attr "authenticated" ss_authenticated in
  if authenticated then authenticated_view env w else ret tt.

(** How one execution of the script ended. *)
Inductive Outcome :=
  | Done
  | Stopped
  | Rerunning
  | Raised (e : Exn).

Definition outcome_of (r : Result unit) : Outcome :=
  match r with
  | Val _ => Done
  | Halted Stop => Stopped
  | Halted Rerun => Rerunning
  | Halted (Raise e) => Raised e
  end.

(** What persists between two executions of the script. *)
Record State := mkState {
  store : Store;
  session : SessionState;
  uuid_calls : nat
}.

Record Execution := mkExecution {
  outcome : Outcome;
  final : State;
  (** the effects, in the order they happened *)
  trace : list Event
}.

(** One execution of the script. *)
Definition run (env : Env) (w : Widgets) (s : State) : Execution :=
  let '(r, w') := script env w (mkWorld (store s) (session s) (uuid_calls s) []) in
  mkExecution (outcome_of r) (mkState (w_store w') (w_session w') (w_uuid w')) (rev (w_log w')).

(** A UI event: the execution it starts, and the executions [st.rerun()]
    starts after it, at most [fuel] of them. *)
Fixpoint settle (fuel : nat) (env : Env) (w : Widgets) (s : State) : Execution :=
  let e := run env w s in
  match fuel, outcome e with
  | S fuel', Rerunning =>
      let e' := settle fuel' env (after_rerun w) (final e) in
      mkExecution (outcome e') (final e') (trace e ++ trace e')
  | _, _ => e
  end.

(** A sequence of UI events, each with the executions it starts. *)
Fixpoint interact (fuel : nat) (env : Env) (ws : list Widgets) (s : State)
    : list Execution :=
  match ws with
  | [] => []
  | w :: ws' =>
      let e := settle fuel env w s in
      e :: interact fuel env ws' (final e)
  end.

(* ===================================================================== *)
(** * Vocabulary of the properties *)
(* ===================================================================== *)

(** A chat identifier as the script builds it for [owner]: the username,
    an underscore and eight characters. *)
Definition wf_chat_id (owner chat_id : string) : Prop :=
  ∃ h, String.length h = 8 ∧ chat_id = owner +:+ "_" +:+ h.

(** The stores the script produces: every chat identifier has the format
    above, and every message belongs to a chat that exists. *)
Record wf_store (s : Store) : Prop := mk_wf_store {
  wf_chats : Forall (λ c, wf_chat_id (chat_owner_username c) (chat_chat_id c)) (st_chats s);
  wf_messages : Forall (λ m, Db.find_chat (msg_chat_id m) (st_chats s) ≠ None) (st_messages s)
}.

(** The session is the one of the authenticated user [u]. *)
Definition authenticated_as (u : string) (s : SessionState) : Prop :=
  ss_authenticated s = Some true ∧ ss_username s = Some (Some u) ∧ ss_name s ≠ None.

(** The session is anonymous: the key [authenticated] is absent or false. *)
Definition anonymous (s : SessionState) : Prop :=
  ss_authenticated s ≠ Some true.

Definition is_authenticated (s : SessionState) : bool :=
  match ss_authenticated s with
  | Some true => true
  | _ => false
  end.


Definition is_store_call (e : Event) : bool :=
  match e with
  | EStore _ _ => true
  | _ => false
  end.



(** The chat selected in the side bar (lines 121-122). *)
Definition selected_chat (u : string) (w : Widgets) (s : Store) : option string :=
  let chat_ids := map fst (Db.get_all_chat_ids_for_user u s) in
  chat_ids !! radio (length chat_ids) (chosen_idx w).

(** Nothing has been pressed or submitted. *)
Definition quiet (w : Widgets) : Prop :=
  login_btn w = false ∧ register_btn w = false ∧ save_name_btn w = false
  ∧ delete_chat_btn w = false ∧ new_chat_btn w = false ∧ logout_btn w = false
  ∧ chat_input w = None.

(** [st.session_state.chat_id = v] *)
Definition with_chat_id (s : SessionState) (v : option string) : SessionState :=
  mkSession (ss_authenticated s) (ss_username s) (ss_name s) (Some v).



(** From [s] to [s'] at most [k] messages have been appended and none has
    been removed or changed. *)
Definition appended (k : nat) (s s' : Store) : Prop :=
  ∃ new, st_messages s' = (st_messages s ++ new)%list ∧ (length new ≤ k)%nat.

(** A call of the credential store. *)
Definition is_credential_call (c : StoreCall) : bool :=
  match c with
  | VerifyUserCredentials _ _ | GetUserByUsername _ | CreateUser _ _ _ _ => true
  | _ => false
  end.

(** The widgets with another value of the chat input. *)
Definition with_chat_input (w : Widgets) (v : option string) : Widgets :=
  mkWidgets (username_input w) (password_input w) (login_btn w)
            (new_username w) (new_name w) (new_email w) (new_password w)
            (confirm_password w) (register_btn w)
            (chosen_idx w) (rename_text w) (save_name_btn w) (delete_chat_btn w)
            (new_chat_btn w) (logout_btn w) v.

(** An entry of the chat list after the chat [c] has been given the name
    [n]. *)
Definition rename_entry (c : string) (n : option string) (e : string * option string)
    : string * option string :=
  if String.eqb e.1 c then (e.1, n) else e.

(** A lower-case hexadecimal digit. *)
Definition is_hex_digit (c : ascii) : bool :=
  let n := Ascii.nat_of_ascii c in
  ((48 <=? n)%nat && (n <=? 57)%nat) || ((97 <=? n)%nat && (n <=? 102)%nat).

(** Every character of the string satisfies [p]. *)
Fixpoint all_chars (p : ascii → bool) (s : string) : bool :=
  match s with
  | EmptyString => true
  | String c s' => p c && all_chars p s'
  end.

(** The chat messages written on the page, in the order of the page. *)
Fixpoint shown_messages (t : list Event) : list (string * string) :=
  match t with
  | [] => []
  | EUi (ChatMessage role msg) :: t' => (role, msg) :: shown_messages t'
  | _ :: t' => shown_messages t'
  end.

(** A character of the ASCII range, on which the models of [str.strip()]
    and [str.upper()] are those of Python. *)
Definition is_ascii (c : ascii) : bool := (Ascii.nat_of_ascii c <? 128)%nat.


(** The effects through which a message travels: the inserts into the chat
    store and the invocations of the agent. *)
Definition is_message_flow (e : Event) : bool :=
  match e with
  | EStore (InsertMessage _ _ _ _) _ => true
  | EAgent _ _ _ _ => true
  | _ => false
  end.

(** Weakest precondition of a piece of the script: [Q] holds when it
    returns, [E] when it halts. *)
Definition wp {A} (m : M A) (Q : A → World → Prop) (E : Halt → World → Prop)
    (w : World) : Prop :=
  match m w with
  | (Val a, w') => Q a w'
  | (Halted h, w') => E h w'
  end.

(** The execution made of a result and the world it was reached in. *)
Definition execution_of (r : Result unit) (w : World) : Execution :=
  mkExecution (outcome_of r) (mkState (w_store w) (w_session w) (w_uuid w)) (rev (w_log w)).

Definition initial_world (s : State) : World :=
  mkWorld (store s) (session s) (uuid_calls s) [].

(** ** Sample data *)

Module Sample.

Definition env : Env :=
  mkEnv None (λ k, N.shiftl (N.of_nat (k + 1)) 100) (λ p, "h:" +:+ p)
        (λ _ input, Some ("re:" +:+ input)).

Definition env_down : Env :=
  mkEnv (Some " off ") (uuid4 env) (password_hash env) (agent_invoke env).

Definition idle : Widgets :=
  mkWidgets "" "" false "" "" "" "" "" false 0 None false false false false None.

Definition alice : User := mkUser "alice" "Alice" "alice@example.org" "h:p1".
Definition bob : User := mkUser "bob" "Bob" "bob@example.org" "h:p2".

(** alice and bob are registered, bob has one chat. *)
Definition registered : Store :=
  mkStore (<["alice" := alice]> (<["bob" := bob]> ∅))
          [mkChat "bob_0000002a" "bob" None]
          [mkMessage "bob_0000002a" "assistant" "hello"].

(** alice has two chats as well. *)
Definition two_chats : Store :=
  mkStore (st_users registered)
          [mkChat "bob_0000002a" "bob" None;
           mkChat "alice_00000001" "alice" (Some "Trip");
           mkChat "alice_00000002" "alice" None]
          [mkMessage "bob_0000002a" "assistant" "hello";
           mkMessage "alice_00000001" "assistant" "m1";
           mkMessage "alice_00000001" "user" "m2";
           mkMessage "alice_00000001" "assistant" "m3";
           mkMessage "alice_00000001" "user" "m4";
           mkMessage "alice_00000002" "assistant" "hi"].

Definition fresh : State := mkState registered empty_session 0.

Definition alice_session (chat_id : option string) : SessionState :=
  mkSession (Some true) (Some (Some "alice")) (Some (Some "Alice")) (Some chat_id).

(** alice is logged in and looks at her first chat. *)
Definition chatting : State :=
  mkState two_chats (alice_session (Some "alice_00000001")) 7.

(** alice has one chat with twelve messages, and looks at it. *)
Definition twelve_messages : Store :=
  mkStore (st_users registered)
          [mkChat "alice_00000001" "alice" None]
          (map (λ rm, mkMessage "alice_00000001" rm.1 rm.2)
               [("assistant", "m01"); ("user", "m02"); ("assistant", "m03");
                ("user", "m04"); ("assistant", "m05"); ("user", "m06");
                ("assistant", "m07"); ("user", "m08"); ("assistant", "m09");
                ("assistant", "m10"); ("user", "m11"); ("assistant", "m12")]).

Definition busy : State :=
  mkState twelve_messages (alice_session (Some "alice_00000001")) 3.

Definition login_alice : Widgets :=
  mkWidgets "alice" "p1" true "" "" "" "" "" false 0 None false false false false None.

Definition login_wrong : Widgets :=
  mkWidgets "alice" "nope" true "" "" "" "" "" false 0 None false false false false None.

Definition register_carol : Widgets :=
  mkWidgets "" "" false "carol" "Carol" "carol@example.org" "pw" "pw" true
            0 None false false false false None.

Definition register_mismatch : Widgets :=
  mkWidgets "" "" false "carol" "Carol" "carol@example.org" "pw" "pv" true
            0 None false false false false None.

Definition say (text : string) : Widgets :=
  mkWidgets "" "" false "" "" "" "" "" false 0 None false false false false (Some text).

Definition press_delete : Widgets :=
  mkWidgets "" "" false "" "" "" "" "" false 0 None false true false false None.

Definition press_new_chat : Widgets :=
  mkWidgets "" "" false "" "" "" "" "" false 0 None false false true false None.

End Sample.

(** The functions of the stores and of the strings are used through their
    lemmas. *)
Arguments Py.prefix : simpl never.
Arguments Py.uuid_hex : simpl never.
Arguments Db.last_n : simpl never.
Arguments Db.get_user_by_username : simpl never.
Arguments Db.verify_user_credentials : simpl never.
Arguments Db.create_user : simpl never.
Arguments Db.chat_owner : simpl never.
Arguments Db.insert_message : simpl never.
Arguments Db.chat_messages : simpl never.
Arguments Db.get_chat_history : simpl never.
Arguments Db.get_all_chat_ids_for_user : simpl never.
Arguments Db.update_chat_name : simpl never.
Arguments Db.delete_chat : simpl never.
Arguments greeting_no_chats : simpl never.
Arguments greeting_new_chat : simpl never.
Arguments agent_executor : simpl never.

(* ===================================================================== *)
(** * Strings *)
(* ===================================================================== *)

Lemma string_length_app (s1 s2 : string) :
  String.length (s1 +:+ s2) = String.length s1 + String.length s2.
Proof. induction s1 as [|c s1 IH]; simpl; [done | by rewrite IH]. Qed.

Lemma app_inj_same_length (a a' b b' : string) :
  String.length a = String.length a' → a +:+ b = a' +:+ b' → a = a'.
Proof.
  revert a'. induction a as [|c a IH]; intros [|c' a'] Hlen Heq; simpl in *; try done.
  injection Heq as -> Heq. f_equal. apply IH; [lia | done].
Qed.

Lemma prefix_length (k : nat) (s : string) :
  (k ≤ String.length s)%nat → String.length (Py.prefix k s) = k.
Proof.
  unfold Py.prefix. revert s.
  induction k as [|k IH]; intros [|c s] Hk; simpl in *; try done; try lia.
  rewrite IH; [done | lia].
Qed.

Lemma hex_of_length (k : nat) (n : N) : String.length (Py.hex_of k n) = k.
Proof. induction k as [|k IH]; simpl; [done | by rewrite IH]. Qed.

Lemma uuid_hex8_length (n : N) : String.length (Py.prefix 8 (Py.uuid_hex n)) = 8.
Proof. apply prefix_length. unfold Py.uuid_hex. rewrite hex_of_length. lia. Qed.

Lemma wf_chat_id_owner (o o' c : string) : wf_chat_id o c → wf_chat_id o' c → o = o'.
Proof.
  intros (h & Hh & ->) (h' & Hh' & Heq).
  assert (Hlen : String.length (o +:+ "_" +:+ h) = String.length (o' +:+ "_" +:+ h'))
    by (by rewrite Heq).
  rewrite !string_length_app in Hlen. simpl in Hlen.
  apply (app_inj_same_length o o' ("_" +:+ h) ("_" +:+ h')); [lia | done].
Qed.

Lemma wf_chat_id_truthy (o c : string) : wf_chat_id o c → Py.truthy c = true.
Proof.
  intros (h & Hh & ->). destruct o; simpl; done.
Qed.

Lemma wf_chat_id_new (u : string) (n : N) :
  wf_chat_id u (u +:+ "_" +:+ Py.prefix 8 (Py.uuid_hex n)).
Proof. eexists. split; [apply uuid_hex8_length | done]. Qed.

(* ===================================================================== *)
(** * The chat store *)
(* ===================================================================== *)

Lemma find_chat_Some (c : string) (cs : list Chat) (ch : Chat) :
  Db.find_chat c cs = Some ch → chat_chat_id ch = c ∧ ch ∈ cs.
Proof.
  induction cs as [|x cs IH]; simpl; [done |].
  destruct (String.eqb_spec (chat_chat_id x) c) as [Heq | Hne].
  - intros [= <-]. split; [done | left].
  - intros H. destruct (IH H) as [? ?]. split; [done | by right].
Qed.

Lemma find_chat_None (c : string) (cs : list Chat) :
  Db.find_chat c cs = None ↔ ∀ ch, ch ∈ cs → chat_chat_id ch ≠ c.
Proof.
  induction cs as [|x cs IH]; simpl.
  - split; [intros _ ch Hin; inversion Hin | done].
  - destruct (String.eqb_spec (chat_chat_id x) c) as [Heq | Hne].
    + split; [done | intros H; exfalso; apply (H x); [left | done]].
    + rewrite IH. split.
      * intros H ch Hin. inversion Hin; subst; [done | by apply H].
      * intros H ch Hin. apply H. by right.
Qed.

Lemma find_chat_app (c : string) (cs cs' : list Chat) :
  Db.find_chat c (cs ++ cs') =
  match Db.find_chat c cs with
  | Some ch => Some ch
  | None => Db.find_chat c cs'
  end.
Proof.
  induction cs as [|x cs IH]; simpl; [done |].
  by destruct (String.eqb (chat_chat_id x) c).
Qed.

Lemma find_chat_rename (c c' : string) (n : option string) (cs : list Chat) :
  Db.find_chat c' (map (Db.rename_chat c n) cs) = Db.rename_chat c n <$> Db.find_chat c' cs.
Proof.
  induction cs as [|x cs IH]; simpl; [done |].
  assert (Hid : chat_chat_id (Db.rename_chat c n x) = chat_chat_id x).
  { unfold Db.rename_chat. by destruct (String.eqb (chat_chat_id x) c). }
  rewrite Hid. by destruct (String.eqb (chat_chat_id x) c').
Qed.

Lemma find_chat_delete_ne (c c' : string) (cs : list Chat) :
  c' ≠ c →
  Db.find_chat c' (List.filter (λ x, negb (String.eqb (chat_chat_id x) c)) cs)
  = Db.find_chat c' cs.
Proof.
  intros Hne. induction cs as [|x cs IH]; simpl; [done |].
  destruct (String.eqb_spec (chat_chat_id x) c) as [Heq | Hne']; simpl.
  - destruct (String.eqb_spec (chat_chat_id x) c'); [congruence | done].
  - by rewrite IH.
Qed.

Lemma find_chat_delete_eq (c : string) (cs : list Chat) :
  Db.find_chat c (List.filter (λ x, negb (String.eqb (chat_chat_id x) c)) cs) = None.
Proof.
  induction cs as [|x cs IH]; simpl; [done |].
  destruct (String.eqb_spec (chat_chat_id x) c) as [Heq | Hne]; simpl; [done |].
  by destruct (String.eqb_spec (chat_chat_id x) c).
Qed.

Lemma rename_chat_owner (c : string) (n : option string) (x : Chat) :
  chat_owner_username (Db.rename_chat c n x) = chat_owner_username x
  ∧ chat_chat_id (Db.rename_chat c n x) = chat_chat_id x.
Proof. unfold Db.rename_chat. by destruct (String.eqb (chat_chat_id x) c). Qed.

(** In a well-formed store a chat identifier has one owner. *)
Lemma chat_owner_of_member (s : Store) (ch : Chat) :
  wf_store s → ch ∈ st_chats s →
  Db.chat_owner (chat_chat_id ch) s = Some (chat_owner_username ch).
Proof.
  intros [Hwf _] Hin. unfold Db.chat_owner.
  destruct (Db.find_chat (chat_chat_id ch) (st_chats s)) as [ch'|] eqn:Hfind.
  - apply find_chat_Some in Hfind as [Hid Hin'].
    rewrite Forall_forall in Hwf.
    pose proof (Hwf _ Hin) as H1. pose proof (Hwf _ Hin') as H2.
    rewrite Hid in H2. simpl. f_equal. by apply (wf_chat_id_owner _ _ _ H2 H1).
  - exfalso. rewrite find_chat_None in Hfind. by apply (Hfind ch).
Qed.

Lemma chat_owner_wf (s : Store) (c o : string) :
  wf_store s → Db.chat_owner c s = Some o → wf_chat_id o c.
Proof.
  intros [Hwf _]. unfold Db.chat_owner.
  destruct (Db.find_chat c (st_chats s)) as [ch|] eqn:Hfind; [|done].
  intros [= <-]. apply find_chat_Some in Hfind as [<- Hin].
  rewrite Forall_forall in Hwf. by apply Hwf.
Qed.

(** What [get_all_chat_ids_for_user] lists belongs to the user. *)
Lemma listed_member (s : Store) (u c : string) (i : nat) :
  (map fst (Db.get_all_chat_ids_for_user u s)) !! i = Some c →
  ∃ ch, ch ∈ st_chats s ∧ chat_chat_id ch = c ∧ chat_owner_username ch = u.
Proof.
  intros Hi. apply list_elem_of_lookup_2 in Hi.
  unfold Db.get_all_chat_ids_for_user in Hi. rewrite <- list_fmap_compose in Hi.
  apply list_elem_of_fmap in Hi as (ch & -> & Hin).
  apply list_elem_of_In, filter_In in Hin as [Hin Ho].
  exists ch. split; [by apply list_elem_of_In |]. split; [done |].
  by apply String.eqb_eq.
Qed.

Lemma listed_owned (s : Store) (u c : string) (i : nat) :
  wf_store s →
  (map fst (Db.get_all_chat_ids_for_user u s)) !! i = Some c →
  Db.chat_owner c s = Some u ∧ Py.truthy c = true.
Proof.
  intros Hwf Hi. destruct (listed_member _ _ _ _ Hi) as (ch & Hin & <- & <-).
  pose proof (chat_owner_of_member _ _ Hwf Hin) as Ho. split; [done |].
  apply (wf_chat_id_truthy (chat_owner_username ch)). by apply (chat_owner_wf s).
Qed.

Lemma owned_listed (s : Store) (u c : string) :
  Db.chat_owner c s = Some u → c ∈ map fst (Db.get_all_chat_ids_for_user u s).
Proof.
  unfold Db.chat_owner. destruct (Db.find_chat c (st_chats s)) as [ch|] eqn:Hfind; [|done].
  intros [= <-]. apply find_chat_Some in Hfind as [<- Hin].
  unfold Db.get_all_chat_ids_for_user. rewrite <- list_fmap_compose.
  apply list_elem_of_fmap. exists ch. split; [done |].
  apply list_elem_of_In, filter_In. split; [by apply list_elem_of_In | apply String.eqb_refl].
Qed.

(** ** The operations keep the store well formed *)


Lemma wf_insert_message (u c r m : string) (s : Store) :
  wf_store s → (Db.chat_owner c s = None → wf_chat_id u c) →
  wf_store (Db.insert_message u c r m s).2.
Proof.
  intros [Hc Hm] Hnew. unfold Db.insert_message, Db.chat_owner in *.
  destruct (Db.find_chat c (st_chats s)) as [ch|] eqn:Hfind; simpl.
  - destruct (String.eqb (chat_owner_username ch) u); simpl; [|by split].
    split; simpl; [done |]. apply Forall_app. split; [done |].
    constructor; [|constructor]. simpl. by rewrite Hfind.
  - split; simpl.
    + apply Forall_app. split; [done |]. constructor; [|constructor]. simpl. by apply Hnew.
    + apply Forall_app. split.
      * eapply Forall_impl; [exact Hm |]. intros x Hx. simpl in Hx. rewrite find_chat_app.
        by destruct (Db.find_chat (msg_chat_id x) (st_chats s)).
      * constructor; [|constructor]. simpl. rewrite find_chat_app, Hfind. simpl.
        by rewrite String.eqb_refl.
Qed.

Lemma wf_update_chat_name (c : string) (n : option string) (s : Store) :
  wf_store s → wf_store (Db.update_chat_name c n s).2.
Proof.
  intros [Hc Hm]. unfold Db.update_chat_name.
  destruct (Db.find_chat c (st_chats s)); simpl; [|by split].
  split; simpl.
  - apply Forall_fmap. eapply Forall_impl; [exact Hc |]. intros x Hx. simpl.
    by destruct (rename_chat_owner c n x) as [-> ->].
  - eapply Forall_impl; [exact Hm |]. intros x Hx. simpl in *. rewrite find_chat_rename.
    by destruct (Db.find_chat (msg_chat_id x) (st_chats s)).
Qed.

Lemma wf_delete_chat (c : string) (s : Store) :
  wf_store s → wf_store (Db.delete_chat c s).2.
Proof.
  intros [Hc Hm]. unfold Db.delete_chat.
  destruct (Db.find_chat c (st_chats s)); simpl; [|by split].
  split; simpl.
  - rewrite Forall_forall in Hc. apply Forall_forall. intros x Hx.
    apply list_elem_of_In, filter_In in Hx as [Hx _]. by apply Hc, list_elem_of_In.
  - rewrite Forall_forall in Hm. apply Forall_forall. intros x Hx.
    apply list_elem_of_In, filter_In in Hx as [Hx Hne].
    rewrite find_chat_delete_ne; [by apply Hm, list_elem_of_In |].
    destruct (String.eqb_spec (msg_chat_id x) c); [done | done].
Qed.

Lemma wf_create_user (hash : string → string) (u n e p : string) (s : Store) :
  wf_store s → wf_store (Db.create_user hash u n e p s).2.
Proof.
  intros [Hc Hm]. unfold Db.create_user. destruct (st_users s !! u); simpl; by split.
Qed.

(* ===================================================================== *)
(** * Rules for executing the script *)
(* ===================================================================== *)

Section Rules.
Context {A B : Type}.
Implicit Types (Q : A → World → Prop) (E : Halt → World → Prop) (w : World).

Lemma wp_ret (a : A) Q E w : Q a w → wp (ret a) Q E w.
Proof. done. Qed.

Lemma wp_halt (h : Halt) Q E w : E h w → wp (halt h) Q E w.
Proof. done. Qed.

Lemma wp_bind (m : M A) (k : A → M B) (R : B → World → Prop) E w :
  wp m (λ a w', wp (k a) R E w') E w → wp (bind m k) R E w.
Proof. unfold wp, bind. by destruct (m w) as [[a|h] w']. Qed.

Lemma wp_bind_inv (m : M A) (k : A → M B) (R : B → World → Prop) E w :
  wp (bind m k) R E w → wp m (λ a w', wp (k a) R E w') E w.
Proof. unfold wp, bind. by destruct (m w) as [[a|h] w']. Qed.

Lemma wp_mono (m : M A) Q Q' E E' w :
  (∀ a w', Q a w' → Q' a w') → (∀ h w', E h w' → E' h w') →
  wp m Q E w → wp m Q' E' w.
Proof. unfold wp. intros HQ HE. destruct (m w) as [[a|h] w']; auto. Qed.

Lemma wp_attr (key : string) (field : SessionState → option A) Q E w :
  match field (w_session w) with
  | Some v => Q v w
  | None => E (Raise (AttributeError key)) w
  end → wp (attr key field) Q E w.
Proof. unfold wp, attr, bind, get_session. by destruct (field (w_session w)). Qed.

Lemma wp_query (c : StoreCall) (f : Store → A) Q E w :
  Q (f (w_store w))
    (mkWorld (w_store w) (w_session w) (w_uuid w) (EStore c (w_store w) :: w_log w)) →
  wp (query c f) Q E w.
Proof. done. Qed.

End Rules.

Section UnitRules.
Implicit Types (E : Halt → World → Prop) (w : World).

Lemma wp_emit (e : Event) (Q : unit → World → Prop) E w :
  Q tt (mkWorld (w_store w) (w_session w) (w_uuid w) (e :: w_log w)) → wp (emit e) Q E w.
Proof. done. Qed.

Lemma wp_get_session (Q : SessionState → World → Prop) E w :
  Q (w_session w) w → wp get_session Q E w.
Proof. done. Qed.

Lemma wp_put_session (s : SessionState) (Q : unit → World → Prop) E w :
  Q tt (mkWorld (w_store w) s (w_uuid w) (w_log w)) → wp (put_session s) Q E w.
Proof. done. Qed.

Lemma wp_set_authenticated (b : bool) (Q : unit → World → Prop) E w :
  Q tt (mkWorld (w_store w)
          (mkSession (Some b) (ss_username (w_session w)) (ss_name (w_session w))
             (ss_chat_id (w_session w)))
          (w_uuid w) (w_log w)) →
  wp (set_authenticated b) Q E w.
Proof. done. Qed.

Lemma wp_set_username (v : option string) (Q : unit → World → Prop) E w :
  Q tt (mkWorld (w_store w)
          (mkSession (ss_authenticated (w_session w)) (Some v) (ss_name (w_session w))
             (ss_chat_id (w_session w)))
          (w_uuid w) (w_log w)) →
  wp (set_username v) Q E w.
Proof. done. Qed.

Lemma wp_set_name (v : option string) (Q : unit → World → Prop) E w :
  Q tt (mkWorld (w_store w)
          (mkSession (ss_authenticated (w_session w)) (ss_username (w_session w)) (Some v)
             (ss_chat_id (w_session w)))
          (w_uuid w) (w_log w)) →
  wp (set_name v) Q E w.
Proof. done. Qed.

Lemma wp_set_chat_id (v : option string) (Q : unit → World → Prop) E w :
  Q tt (mkWorld (w_store w)
          (mkSession (ss_authenticated (w_session w)) (ss_username (w_session w))
             (ss_name (w_session w)) (Some v))
          (w_uuid w) (w_log w)) →
  wp (set_chat_id v) Q E w.
Proof. done. Qed.

Lemma wp_as_str (v : option string) (Q : string → World → Prop) E w :
  match v with
  | Some s => Q s w
  | None => E (Raise TypeError) w
  end → wp (as_str v) Q E w.
Proof. by destruct v. Qed.

Lemma wp_new_chat_id (env : Env) (u : option string) (Q : string → World → Prop) E w :
  Q (Py.str u +:+ "_" +:+ Py.prefix 8 (Py.uuid_hex (uuid4 env (w_uuid w))))
    (mkWorld (w_store w) (w_session w) (S (w_uuid w)) (w_log w)) →
  wp (new_chat_id env u) Q E w.
Proof. done. Qed.

Lemma wp_command (c : StoreCall) (f : Store → bool * Store) (Q : bool → World → Prop) E w :
  Q (f (w_store w)).1
    (mkWorld (f (w_store w)).2 (w_session w) (w_uuid w) (EStore c (w_store w) :: w_log w)) →
  wp (command c f) Q E w.
Proof. done. Qed.

Lemma wp_insert_message (u : option string) (c r m : string)
    (Q : bool → World → Prop) E w :
  match u with
  | Some u =>
      Q (Db.insert_message u c r m (w_store w)).1
        (mkWorld (Db.insert_message u c r m (w_store w)).2 (w_session w) (w_uuid w)
           (EStore (InsertMessage u c r m) (w_store w) :: w_log w))
  | None => E (Raise TypeError) w
  end → wp (insert_message u c r m) Q E w.
Proof. by destruct u. Qed.

Lemma wp_get_chat_history (c : option string) (n : nat)
    (Q : list (string * string) → World → Prop) E w :
  match c with
  | Some c =>
      Q (Db.get_chat_history c n (w_store w))
        (mkWorld (w_store w) (w_session w) (w_uuid w)
           (EStore (GetChatHistory c n) (w_store w) :: w_log w))
  | None => E (Raise TypeError) w
  end → wp (get_chat_history c n) Q E w.
Proof. by destruct c. Qed.

Lemma wp_invoke (env : Env) (ex : AgentExecutor) (input : string)
    (Q : string → World → Prop) E w :
  match agent_invoke env ex input with
  | Some output =>
      Q output (mkWorld (w_store w) (w_session w) (w_uuid w)
                  (EAgent ex input (w_store w) (Some output) :: w_log w))
  | None =>
      E (Raise AgentFailure)
        (mkWorld (w_store w) (w_session w) (w_uuid w)
           (EAgent ex input (w_store w) None :: w_log w))
  end →
  wp (invoke env ex input) Q E w.
Proof.
  unfold wp, invoke, bind, get_store, emit. simpl.
  by destruct (agent_invoke env ex input).
Qed.

(** Displaying the history only writes to the page. *)
Lemma wp_display (h : list (string * string)) (Q : unit → World → Prop) E w :
  Q tt (mkWorld (w_store w) (w_session w) (w_uuid w)
          (rev (map (λ m, EUi (ChatMessage m.1 m.2)) h) ++ w_log w)) →
  wp (display h) Q E w.
Proof.
  revert w. induction h as [|[r m] h IH]; intros w HQ; simpl in *.
  - by destruct w.
  - apply wp_bind, wp_emit, IH. simpl. by rewrite <- app_assoc in HQ.
Qed.

Lemma run_wp (env : Env) (wd : Widgets) (s : State) (P : Execution → Prop) :
  wp (script env wd) (λ a w', P (execution_of (Val a) w'))
     (λ h w', P (execution_of (Halted h) w')) (initial_world s) →
  P (run env wd s).
Proof.
  unfold wp, run, initial_world, execution_of.
  by destruct (script env wd _) as [[a|h] w'].
Qed.

End UnitRules.

(** One step of the execution: the rule of the statement at the head. *)
Ltac wp_rule :=
  lazymatch goal with
  | |- wp (bind _ _) _ _ _ => apply wp_bind
  | |- wp (ret _) _ _ _ => apply wp_ret
  | |- wp (halt _) _ _ _ => apply wp_halt
  | |- wp (emit _) _ _ _ => apply wp_emit
  | |- wp (ui _) _ _ _ => apply wp_emit
  | |- wp get_session _ _ _ => apply wp_get_session
  | |- wp (put_session _) _ _ _ => apply wp_put_session
  | |- wp (set_authenticated _) _ _ _ => apply wp_set_authenticated
  | |- wp (set_username _) _ _ _ => apply wp_set_username
  | |- wp (set_name _) _ _ _ => apply wp_set_name
  | |- wp (set_chat_id _) _ _ _ => apply wp_set_chat_id
  | |- wp (attr _ _) _ _ _ => apply wp_attr
  | |- wp (as_str _) _ _ _ => apply wp_as_str
  | |- wp (query _ _) _ _ _ => apply wp_query
  | |- wp (command _ _) _ _ _ => apply wp_command
  | |- wp (new_chat_id _ _) _ _ _ => apply wp_new_chat_id
  | |- wp (insert_message _ _ _ _) _ _ _ => apply wp_insert_message
  | |- wp (get_chat_history _ _) _ _ _ => apply wp_get_chat_history
  | |- wp (display _) _ _ _ => apply wp_display
  | |- wp (invoke _ _ _) _ _ _ => apply wp_invoke
  | |- wp init_session_state _ _ _ => unfold init_session_state
  | |- wp (get_langchain_messages _) _ _ _ => unfold get_langchain_messages
  | |- wp display_chat_history _ _ _ => unfold display_chat_history
  | |- wp header _ _ _ => unfold header
  end;
  cbn [w_store w_session w_uuid w_log ss_authenticated ss_username ss_name ss_chat_id
       store session uuid_calls initial_world init_session negb].

Ltac wp_steps := repeat wp_rule.

(** Entering a function of the script. *)
Ltac wp_unfold :=
  lazymatch goal with
  | |- wp (login _ _) _ _ _ => unfold login
  | |- wp (registration _ _) _ _ _ => unfold registration
  | |- wp (availability_control _) _ _ _ => unfold availability_control
  | |- wp (create_first_chat _) _ _ _ => unfold create_first_chat
  | |- wp (manage_chat _ _ _) _ _ _ => unfold manage_chat
  | |- wp (new_chat _ _) _ _ _ => unfold new_chat
  | |- wp (logout _) _ _ _ => unfold logout
  | |- wp (use_selected_chat _ _) _ _ _ => unfold use_selected_chat
  | |- wp (handle_input _ _ _) _ _ _ => unfold handle_input
  | |- wp (authenticated_view _ _) _ _ _ => unfold authenticated_view
  | |- wp (script _ _) _ _ _ => unfold script
  end; cbv zeta.

(** A branch of the script: both ways are followed. *)
Ltac wp_case :=
  lazymatch goal with
  | |- wp (match ?x with _ => _ end) _ _ _ => destruct x eqn:?
  | |- match ?x with _ => _ end => destruct x eqn:?
  end.

Ltac wp_auto := repeat first [wp_rule | wp_unfold | wp_case].

(** A property of [run env w s] becomes a weakest precondition of the
    script; the property is kept folded as [post]. *)
Ltac wp_start :=
  match goal with
  | |- context [run ?env ?w ?s] =>
      pattern (run env w s);
      match goal with
      | |- ?P _ =>
          let post := fresh "post" in
          set (post := P); apply (run_wp env w s post)
      end
  end; unfold script.

Lemma elem_of_rev {A : Type} (x : A) (l : list A) : x ∈ rev l ↔ x ∈ l.
Proof. rewrite !list_elem_of_In. symmetry. apply in_rev. Qed.

Ltac in_trace :=
  try rewrite elem_of_rev;
  repeat first
    [ apply list_elem_of_here
    | apply elem_of_app; right
    | apply list_elem_of_further ].

(** The first event of an explicit trace that fits. *)
Ltac pick_event :=
  apply list_elem_of_In; repeat first [left; reflexivity | right].

(** All the ways through the script, from any state. *)
Ltac wp_leaf :=
  lazymatch goal with
  | post := _ |- _ =>
      subst post;
      cbn [execution_of trace final outcome session store uuid_calls outcome_of
           w_log w_store w_session w_uuid]
  end.

Ltac all_paths :=
  wp_start; wp_steps;
  lazymatch goal with
  | |- context [init_session (mkSession ?a _ _ _)] =>
      destruct a as [[|]|];
      cbn [init_session ss_authenticated ss_username ss_name ss_chat_id]
  | _ => idtac
  end;
  wp_auto; wp_leaf.

Lemma elem_of_displayed (e : Event) (h : list (string * string)) :
  e ∈ rev (map (λ m, EUi (ChatMessage m.1 m.2)) h) →
  ∃ m, e = EUi (ChatMessage m.1 m.2) ∧ m ∈ h.
Proof. rewrite elem_of_rev. apply list_elem_of_fmap. Qed.

(** The events of a log, one at a time; those that cannot be the event of
    [H] are dropped. *)
Ltac each_event H :=
  try rewrite elem_of_rev in H;
  repeat first
    [ apply elem_of_nil in H; destruct H
    | apply elem_of_cons in H as [H | H]; [try discriminate H |]
    | apply elem_of_app in H as [H | H];
      [try (apply elem_of_displayed in H as (? & H & _); discriminate H) |] ].

(* ===================================================================== *)
(** * The availability switch *)
(* ===================================================================== *)

Lemma init_session_idem (s : SessionState) : init_session (init_session s) = init_session s.
Proof.
  unfold init_session. destruct (ss_authenticated s) eqn:H; simpl; [|done].
  by rewrite H.
Qed.

Lemma init_session_present (s : SessionState) :
  ss_authenticated s ≠ None → init_session s = s.
Proof. unfold init_session. by destruct (ss_authenticated s). Qed.

Lemma is_authenticated_init (s : SessionState) :
  is_authenticated (init_session s) = is_authenticated s.
Proof.
  unfold is_authenticated, init_session.
  destruct (ss_authenticated s) as [b|] eqn:H; simpl; by rewrite ?H.
Qed.

Lemma init_session_chat_id (s : SessionState) :
  ss_chat_id (init_session s) = ss_chat_id s.
Proof. unfold init_session. by destruct (ss_authenticated s). Qed.

(** What one execution does while the switch is off. *)
Lemma run_down (env : Env) (w : Widgets) (s : State) :
  app_is_down env = true →
  run env w s =
  mkExecution Stopped (mkState (store s) (init_session (session s)) (uuid_calls s))
              [EUi (UiError unavailable_message)].
Proof.
  intros Hdown. apply run_wp. unfold script, availability_control. rewrite Hdown.
  wp_steps. done.
Qed.

Lemma settle_down (fuel : nat) (env : Env) (w : Widgets) (s : State) :
  app_is_down env = true → settle fuel env w s = run env w s.
Proof. intros Hdown. destruct fuel; simpl; [done |]. by rewrite run_down. Qed.

(** C3. While the availability switch is off, every UI event ends in
    [st.stop()] right after the fixed message: the trace of its execution is
    that message alone (no call of a store, no login, no registration, no
    chat read or write, no invocation of the agent), the stores are
    unchanged, and the session is the one before the event, up to the
    defaults written when the key [authenticated] is absent: it is as
    authenticated as before, and its active chat is the same. *)
Theorem unavailable_blocks_everything (env : Env) (fuel : nat) (ws : list Widgets) (s : State) :
  app_is_down env = true →
  Forall (λ e,
      outcome e = Stopped
      ∧ trace e = [EUi (UiError unavailable_message)]
      ∧ store (final e) = store s
      ∧ uuid_calls (final e) = uuid_calls s
      ∧ session (final e) = init_session (session s)
      ∧ (ss_authenticated (session s) ≠ None → session (final e) = session s)
      ∧ is_authenticated (session (final e)) = is_authenticated (session s)
      ∧ ss_chat_id (session (final e)) = ss_chat_id (session s))
    (interact fuel env ws s).
Proof.
  intros Hdown.
  assert (Hgen : ∀ s', store s' = store s → uuid_calls s' = uuid_calls s →
            init_session (session s') = init_session (session s) →
            Forall (λ e,
              outcome e = Stopped
              ∧ trace e = [EUi (UiError unavailable_message)]
              ∧ store (final e) = store s
              ∧ uuid_calls (final e) = uuid_calls s
              ∧ session (final e) = init_session (session s)
              ∧ (ss_authenticated (session s) ≠ None → session (final e) = session s)
              ∧ is_authenticated (session (final e)) = is_authenticated (session s)
              ∧ ss_chat_id (session (final e)) = ss_chat_id (session s))
              (interact fuel env ws s')).
  { induction ws as [|w ws IH]; intros s' Hst Hu Hss; simpl; [constructor |].
    rewrite settle_down, run_down by done. constructor.
    - simpl. repeat split; try done.
      + intros Hp. by rewrite Hss, init_session_present.
      + by rewrite Hss, is_authenticated_init.
      + by rewrite Hss, init_session_chat_id.
    - apply IH; simpl; try done. by rewrite init_session_idem. }
  by apply Hgen.
Qed.

Lemma unavailable_blocks_everything_witness :
  app_is_down Sample.env_down = true
  ∧ Forall (λ e, outcome e = Stopped ∧ trace e = [EUi (UiError unavailable_message)]
                 ∧ store (final e) = Sample.registered)
      (interact 3 Sample.env_down [Sample.login_alice; Sample.register_carol; Sample.say "hi"]
         Sample.fresh).
Proof.
  split; [reflexivity |].
  eapply Forall_impl;
    [apply (unavailable_blocks_everything Sample.env_down 3
              [Sample.login_alice; Sample.register_carol; Sample.say "hi"] Sample.fresh);
     reflexivity |].
  intros e (? & ? & ? & _). done.
Defined.

(* ===================================================================== *)
(** * Login and registration *)
(* ===================================================================== *)

Lemma anonymous_init (ss : SessionState) :
  anonymous ss → ss_authenticated (init_session ss) = Some false.
Proof.
  unfold anonymous, init_session.
  by destruct (ss_authenticated ss) as [[|]|] eqn:H; simpl.
Qed.

Lemma anonymous_init_anonymous (ss : SessionState) :
  anonymous ss → anonymous (init_session ss).
Proof. intros H. unfold anonymous. by rewrite anonymous_init. Qed.

Lemma session_eta (s : SessionState) :
  mkSession (ss_authenticated s) (ss_username s) (ss_name s) (ss_chat_id s) = s.
Proof. by destruct s. Qed.

Lemma verified_user_exists (hash : string → string) (u p : string) (s : Store) :
  Db.verify_user_credentials hash u p s = true →
  ∃ user, Db.get_user_by_username u s = Some user
          ∧ user_password_hash user = hash p.
Proof.
  unfold Db.verify_user_credentials, Db.get_user_by_username.
  destruct (st_users s !! u) as [user|]; [|done].
  intros H. exists user. split; [done |]. by apply bool_decide_eq_true in H.
Qed.
Lemma anonymous_not_authenticated (ss : SessionState) :
  anonymous ss → is_authenticated ss = false.
Proof. unfold anonymous, is_authenticated. by destruct (ss_authenticated ss) as [[|]|]. Qed.

(** C1. A login attempt from an anonymous session authenticates the
    session if and only if the credential store verifies the submitted
    pair.  When it does, [authenticated] is true, [username] and [name] are
    those of the stored user, a chat identifier is drawn for the user and
    the script is run again; when it does not, the session stays anonymous
    and the error message is shown. *)
Theorem login_iff_verified (env : Env) (w : Widgets) (s : State) :
  app_is_down env = false → anonymous (session s) → login_btn w = true →
  let e := run env w s in
  let ok := Db.verify_user_credentials (password_hash env) (username_input w)
              (password_input w) (store s) in
  (is_authenticated (session (final e)) = true ↔ ok = true)
  ∧ (ok = true →
     ∃ user, Db.get_user_by_username (username_input w) (store s) = Some user
       ∧ session (final e) =
           mkSession (Some true) (Some (Some (user_username user)))
             (Some (Some (user_full_name user)))
             (Some (Some (user_username user +:+ "_"
                          +:+ Py.prefix 8 (Py.uuid_hex (uuid4 env (uuid_calls s))))))
       ∧ outcome e = Rerunning ∧ store (final e) = store s)
  ∧ (ok = false →
       session (final e) = init_session (session s)
       ∧ anonymous (session (final e))
       ∧ EUi (UiError "Incorrect username or password.") ∈ trace e).
Proof.
  intros Hup Hanon Hbtn e ok. subst e ok. destruct s as [st [a u n c] k].
  cbn [store session uuid_calls] in *.
  destruct a as [[|]|]; [done | |].
  all: wp_start; unfold availability_control; rewrite Hup; wp_steps.
  all: unfold login; rewrite Hbtn; wp_steps.
  all: destruct (Db.verify_user_credentials _ _ _ st) eqn:Hok.
  all: try (destruct (verified_user_exists _ _ _ _ Hok) as (user & Huser & _);
            wp_steps; rewrite Huser; wp_steps; wp_leaf;
            split; [done |]; split; [|done]; intros _; by exists user).
  all: wp_auto; wp_leaf.
  all: split; [by cbv |].
  all: split; [done |]; intros _; split; [done |]; split; [by cbv |].
  all: in_trace.
Qed.

Lemma login_iff_verified_witness :
  is_authenticated (session (final (run Sample.env Sample.login_alice Sample.fresh))) = true
  ∧ is_authenticated (session (final (run Sample.env Sample.login_wrong Sample.fresh))) = false.
Proof.
  split.
  - apply (login_iff_verified Sample.env Sample.login_alice Sample.fresh);
      [reflexivity | by vm_compute | reflexivity | reflexivity].
  - destruct (login_iff_verified Sample.env Sample.login_wrong Sample.fresh)
      as (_ & _ & H); [reflexivity | by vm_compute | reflexivity |].
    destruct H as (_ & Hanon & _); [reflexivity |].
    by apply anonymous_not_authenticated.
Defined.


(* ===================================================================== *)
(** * The agent executor *)
(* ===================================================================== *)

(** C8. Whenever the script invokes the agent, the executor it invokes has
    been built with [max_iterations=3], [max_execution_time=30] and
    [early_stopping_method="force"]. *)
Theorem agent_executor_bounds (env : Env) (w : Widgets) (s : State)
    (ex : AgentExecutor) (input : string) (st : Store) (out : option string) :
  EAgent ex input st out ∈ trace (run env w s) →
  ae_max_iterations ex = 3
  ∧ ae_max_execution_time ex = 30
  ∧ ae_early_stopping_method ex = "force".
Proof.
  destruct s as [st0 [a u n c] k].
  all_paths.
  all: intros H; each_event H.
  all: by injection H as -> _ _ _.
Qed.

Lemma agent_executor_bounds_witness :
  ∃ ex input st out,
    EAgent ex input st out ∈ trace (run Sample.env (Sample.say "hi") Sample.chatting)
    ∧ ae_max_iterations ex = 3
    ∧ ae_max_execution_time ex = 30
    ∧ ae_early_stopping_method ex = "force".
Proof.
  assert (Hin : ∃ ex input st out,
             EAgent ex input st out
             ∈ trace (run Sample.env (Sample.say "hi") Sample.chatting)).
  { set (t := trace _). vm_compute in t. subst t. do 4 eexists. pick_event. }
  destruct Hin as (ex & input & st & out & Hin).
  exists ex, input, st, out. split; [exact Hin |].
  exact (agent_executor_bounds _ _ _ _ _ _ _ Hin).
Defined.
Lemma registration_session (env : Env) (w : Widgets) (world : World) :
  w_session (registration env w world).2 = w_session world
  ∧ (registration env w world).1 = Val tt.
Proof.
  assert (H : wp (registration env w)
                (λ a w', w_session w' = w_session world
                         ∧ Val a = Val tt)
                (λ _ _, False) world).
  { destruct world as [st ss k log]. wp_auto; by destruct_and?. }
  unfold wp in H. destruct (registration env w world) as [[[]|h] w']; [done | done].
Qed.

(** C6. Pressing Register never changes the session: the handler returns
    with [st.session_state] as it found it, whatever the outcome of the
    registration; and an execution started by pressing Register in an
    anonymous session ends with the session still anonymous, equal to the
    one before (up to the defaults written when the key [authenticated] is
    absent), with no active chat set. *)
Theorem registration_keeps_session (env : Env) (w : Widgets) (s : State) :
  anonymous (session s) → login_btn w = false → register_btn w = true →
  let e := run env w s in
  (∀ world, w_session (registration env w world).2 = w_session world)
  ∧ session (final e) = init_session (session s)
  ∧ anonymous (session (final e))
  ∧ ss_chat_id (session (final e)) = ss_chat_id (session s)
  ∧ (ss_authenticated (session s) ≠ None → session (final e) = session s).
Proof.
  intros Hanon Hlogin Hreg e. subst e.
  split; [intros world; apply registration_session |].
  assert (H : session (final (run env w s)) = init_session (session s)).
  { destruct s as [st [a u n c] k]. cbn [store session uuid_calls] in *.
    destruct a as [[|]|]; [done | |].
    all: wp_start; wp_steps; unfold login; rewrite Hlogin; wp_auto; by wp_leaf. }
  rewrite H. split; [done |]. split; [by apply anonymous_init_anonymous |].
  split; [apply init_session_chat_id |]. apply init_session_present.
Qed.

Lemma registration_keeps_session_witness :
  session (final (run Sample.env Sample.register_carol Sample.fresh))
  = init_session empty_session
  ∧ session (final (run Sample.env Sample.register_mismatch Sample.fresh))
  = init_session empty_session.
Proof.
  split.
  - apply (registration_keeps_session Sample.env Sample.register_carol Sample.fresh);
      [by vm_compute | reflexivity | reflexivity].
  - apply (registration_keeps_session Sample.env Sample.register_mismatch Sample.fresh);
      [by vm_compute | reflexivity | reflexivity].
Defined.

(* ===================================================================== *)
(** * Registration *)
(* ===================================================================== *)

Lemma create_user_unchanged_taken (hash : string → string) (u n e p : string) (s : Store) :
  Db.get_user_by_username u s ≠ None → Db.create_user hash u n e p s = (false, s).
Proof.
  unfold Db.get_user_by_username, Db.create_user. by destruct (st_users s !! u).
Qed.

(** C10. [create_user] is called only from the Register handler, with the
    fields of the form, when the two passwords are equal and the store has
    no user of that name; and a registration attempt with passwords that
    differ, or with a username that is taken, shows an error, calls
    [create_user] not at all and leaves the stores as they were. *)
Theorem create_user_is_guarded (env : Env) (w : Widgets) (s : State) :
  let e := run env w s in
  (∀ u n m p before,
      EStore (CreateUser u n m p) before ∈ trace e →
      register_btn w = true
      ∧ new_password w = confirm_password w
      ∧ Db.get_user_by_username u before = None
      ∧ before = store s
      ∧ (u, n, m, p) = (new_username w, new_name w, new_email w, new_password w))
  ∧ (anonymous (session s) → app_is_down env = false →
     login_btn w = false → register_btn w = true →
     new_password w ≠ confirm_password w
     ∨ Db.get_user_by_username (new_username w) (store s) ≠ None →
     store (final e) = store s
     ∧ (∀ u n m p before, EStore (CreateUser u n m p) before ∉ trace e)
     ∧ (EUi (UiError "Passwords do not match.") ∈ trace e
        ∨ EUi (UiError "Username already exists.") ∈ trace e)).
Proof.
  intros e. subst e. split.
  - intros u' n' m' p' before. destruct s as [st0 [a u n c] k].
    all_paths.
    all: intros H; each_event H.
    all: injection H as -> -> -> -> ->.
    all: repeat split; try done.
    all: by apply String.eqb_eq, negb_false_iff.
  - intros Hanon Hup Hlogin Hreg Hguard. destruct s as [st0 [a u n c] k].
    cbn [store session uuid_calls] in *.
    destruct a as [[|]|]; [done | |].
    all: wp_start; unfold availability_control; rewrite Hup; wp_steps.
    all: unfold login; rewrite Hlogin; wp_steps.
    all: unfold registration; rewrite Hreg.
    all: destruct (String.eqb_spec (new_password w) (confirm_password w)) as [Heq | Hne];
      cbn [negb].
    all: try (wp_auto; wp_leaf; split; [done |]; split;
              [intros ? ? ? ? ? H; by each_event H | left; in_trace]).
    all: destruct Hguard as [? | Hex]; [done |].
    all: wp_steps.
    all: destruct (Db.get_user_by_username (new_username w) st0) eqn:Hu; [|done].
    all: wp_auto; wp_leaf; split; [done |]; split;
      [intros ? ? ? ? ? H; by each_event H | right; in_trace].
Qed.

Lemma create_user_is_guarded_witness :
  store (final (run Sample.env Sample.register_mismatch Sample.fresh)) = Sample.registered
  ∧ (EStore (CreateUser "carol" "Carol" "carol@example.org" "pw") Sample.registered
     ∈ trace (run Sample.env Sample.register_carol Sample.fresh)
     ∧ new_password Sample.register_carol = confirm_password Sample.register_carol
     ∧ Db.get_user_by_username "carol" Sample.registered = None).
Proof.
  split.
  - apply (create_user_is_guarded Sample.env Sample.register_mismatch Sample.fresh);
      [by vm_compute | reflexivity | reflexivity | reflexivity | left; by vm_compute].
  - assert (Hin : EStore (CreateUser "carol" "Carol" "carol@example.org" "pw")
                    Sample.registered
                  ∈ trace (run Sample.env Sample.register_carol Sample.fresh)).
    { set (t := trace _). vm_compute in t. subst t. pick_event. }
    split; [exact Hin |].
    destruct (create_user_is_guarded Sample.env Sample.register_carol Sample.fresh)
      as [H _].
    destruct (H _ _ _ _ _ Hin) as (_ & Hpw & Hnone & _). by split.
Defined.

(* ===================================================================== *)
(** * Ownership of the chats *)
(* ===================================================================== *)

Lemma update_chat_name_owned (c u : string) (n : option string) (s : Store) :
  Db.chat_owner c s = Some u → (Db.update_chat_name c n s).1 = true.
Proof.
  unfold Db.chat_owner, Db.update_chat_name. by destruct (Db.find_chat c (st_chats s)).
Qed.

Lemma delete_chat_owned (c u : string) (s : Store) :
  Db.chat_owner c s = Some u → (Db.delete_chat c s).1 = true.
Proof.
  unfold Db.chat_owner, Db.delete_chat. by destruct (Db.find_chat c (st_chats s)).
Qed.

Lemma chat_owner_insert_message (u c r m c' : string) (s : Store) (o : string) :
  Db.chat_owner c' s = Some o → Db.chat_owner c' (Db.insert_message u c r m s).2 = Some o.
Proof.
  unfold Db.insert_message, Db.chat_owner.
  destruct (Db.find_chat c (st_chats s)) as [ch|] eqn:Hc; simpl.
  - by destruct (String.eqb (chat_owner_username ch) u).
  - rewrite find_chat_app. by destruct (Db.find_chat c' (st_chats s)).
Qed.


(** What a path through the authenticated view knows about the chat that
    is selected in the side bar: it is listed, hence owned by the user. *)
Ltac selected_chat_facts Hwf :=
  try match goal with
  | H1 : map fst (Db.get_all_chat_ids_for_user ?u ?st) = ?l, H2 : ?l !! _ = Some ?c |- _ =>
      rewrite <- H1 in H2;
      let Hown := fresh "Hown" in
      let Htruthy := fresh "Htruthy" in
      destruct (listed_owned _ _ _ _ Hwf H2) as [Hown Htruthy];
      try match goal with
      | H : (Db.update_chat_name c _ st).1 = false |- _ =>
          rewrite (update_chat_name_owned _ _ _ _ Hown) in H; discriminate H
      end;
      try match goal with
      | H : (Db.delete_chat c st).1 = false |- _ =>
          rewrite (delete_chat_owned _ _ _ Hown) in H; discriminate H
      end;
      try match goal with
      | H : Py.truthy c = false |- _ => rewrite Htruthy in H; discriminate H
      end;
      try match goal with
      | H : Py.truthy c && negb (bool_decide (Some c = _)) = false |- _ =>
          rewrite Htruthy in H; cbn [andb] in H;
          apply negb_false_iff, bool_decide_eq_true in H;
          first [discriminate H | injection H as <-]
      end
  end.

(** What the functions of the chat store leave alone. *)
Lemma insert_message_users (u c r m : string) (s : Store) :
  st_users (Db.insert_message u c r m s).2 = st_users s.
Proof.
  unfold Db.insert_message. destruct (Db.chat_owner c s) as [o|]; [|done].
  by destruct (String.eqb o u).
Qed.

Lemma update_chat_name_users (c : string) (n : option string) (s : Store) :
  st_users (Db.update_chat_name c n s).2 = st_users s
  ∧ st_messages (Db.update_chat_name c n s).2 = st_messages s.
Proof. unfold Db.update_chat_name. by destruct (Db.find_chat c (st_chats s)). Qed.

Lemma delete_chat_users (c : string) (s : Store) :
  st_users (Db.delete_chat c s).2 = st_users s.
Proof. unfold Db.delete_chat. by destruct (Db.find_chat c (st_chats s)). Qed.

Lemma delete_chat_other_messages (c c' : string) (s : Store) :
  c' ≠ c → Db.chat_messages c' (Db.delete_chat c s).2 = Db.chat_messages c' s.
Proof.
  intros Hne. unfold Db.delete_chat, Db.chat_messages.
  destruct (Db.find_chat c (st_chats s)); [|done]. simpl. f_equal.
  induction (st_messages s) as [|m ms IH]; simpl; [done |].
  destruct (String.eqb_spec (msg_chat_id m) c) as [-> | Hm]; simpl.
  - rewrite IH. assert (String.eqb c c' = false) as ->; [|done].
    apply String.eqb_neq. congruence.
  - by rewrite IH.
Qed.












Lemma wf_two_chats : wf_store Sample.two_chats.
Proof.
  split; repeat constructor; try done.
  - by exists "0000002a".
  - by exists "00000001".
  - by exists "00000002".
Qed.


(* ===================================================================== *)
(** * The way of a message *)
(* ===================================================================== *)

Lemma last_n_app_1 {A : Type} (l : list A) (x : A) : Db.last_n 1 (l ++ [x])%list = [x].
Proof.
  unfold Db.last_n. rewrite length_app. simpl.
  replace (length l + 1 - 1)%nat with (length l + 0)%nat by lia.
  by rewrite drop_app_add.
Qed.

Lemma last_n_app_2 {A : Type} (l : list A) (x y : A) : Db.last_n 2 (l ++ [x; y])%list = [x; y].
Proof.
  unfold Db.last_n. rewrite length_app. simpl.
  replace (length l + 2 - 2)%nat with (length l + 0)%nat by lia.
  by rewrite drop_app_add.
Qed.

Lemma chat_messages_insert (u c r m : string) (s : Store) :
  Db.chat_owner c s = Some u →
  Db.chat_messages c (Db.insert_message u c r m s).2 = (Db.chat_messages c s ++ [(r, m)])%list.
Proof.
  intros Ho. unfold Db.insert_message. rewrite Ho, String.eqb_refl.
  unfold Db.chat_messages. simpl. rewrite List.filter_app, map_app. simpl.
  by rewrite String.eqb_refl.
Qed.

Lemma filter_displayed (h : list (string * string)) :
  List.filter is_message_flow (rev (map (λ m, EUi (ChatMessage m.1 m.2)) h)) = [].
Proof.
  rewrite List.filter_rev. induction h as [|m h IH]; simpl; [done |].
  by rewrite IH.
Qed.

Ltac message_flow :=
  rewrite List.filter_rev; cbn [List.filter is_message_flow];
  rewrite ?List.filter_app, ?filter_displayed;
  cbn [List.filter is_message_flow app rev].

Lemma history_after_insert (u c r m : string) (s : Store) :
  Db.chat_owner c s = Some u →
  Db.get_chat_history c 1 (Db.insert_message u c r m s).2 = [(r, m)].
Proof.
  intros Ho. unfold Db.get_chat_history. rewrite chat_messages_insert by done.
  apply last_n_app_1.
Qed.

Lemma history_after_two_inserts (u c r m r' m' : string) (s : Store) :
  Db.chat_owner c s = Some u →
  Db.get_chat_history c 2
    (Db.insert_message u c r' m' (Db.insert_message u c r m s).2).2
  = [(r, m); (r', m')].
Proof.
  intros Ho. unfold Db.get_chat_history.
  rewrite chat_messages_insert by (by apply chat_owner_insert_message).
  rewrite chat_messages_insert by done.
  rewrite <- app_assoc. apply last_n_app_2.
Qed.

(** C4. The inserts into the chat store and the invocations of the agent
    made by one execution of the script are, in this order: nothing; or the
    greeting of a chat the script creates (after which it runs again); or,
    for a submitted message, the insert of the user message, then the
    invocation of the agent on a store in which that message is the last of
    the chat, and then, only when the invocation has returned an answer,
    the insert of that answer as the assistant message of the same chat.
    When the invocation raises, nothing is inserted after the user
    message. *)
Theorem message_flow_order (env : Env) (w : Widgets) (s : State) :
  wf_store (store s) →
  let e := run env w s in
  let flow := List.filter is_message_flow (trace e) in
  flow = []
  ∨ (∃ u c greeting st,
       flow = [EStore (InsertMessage u c "assistant" greeting) st]
       ∧ outcome e = Rerunning)
  ∨ (∃ u c x st ex,
       chat_input w = Some x
       ∧ Db.get_chat_history c 1 (Db.insert_message u c "user" x st).2 = [("user", x)]
       ∧ ((agent_invoke env ex x = None
           ∧ flow = [EStore (InsertMessage u c "user" x) st;
                     EAgent ex x (Db.insert_message u c "user" x st).2 None]
           ∧ outcome e = Raised AgentFailure)
          ∨ (∃ answer,
               agent_invoke env ex x = Some answer
               ∧ flow = [EStore (InsertMessage u c "user" x) st;
                         EAgent ex x (Db.insert_message u c "user" x st).2 (Some answer);
                         EStore (InsertMessage u c "assistant" answer)
                                (Db.insert_message u c "user" x st).2]
               ∧ outcome e = Done
               ∧ Db.get_chat_history c 2 (store (final e))
                 = [("user", x); ("assistant", answer)]))).
Proof.
  intros Hwf e flow. subst e flow. destruct s as [st0 [a us n c] k].
  cbn [store session uuid_calls] in *.
  all_paths.
  all: selected_chat_facts Hwf.
  all: message_flow.
  all: try (by left).
  all: try (right; left; by eexists _, _, _, _).
  all: right; right.
  all: match goal with
       | |- context [EStore (InsertMessage ?u ?c "user" ?x) ?st :: EAgent ?ex _ _ _ :: _] =>
           exists u, c, x, st, ex
       end.
  all: split; [done |]; split; [by apply history_after_insert |].
  all: first [ left; by repeat split
             | right; eexists; repeat split; try done;
               by apply history_after_two_inserts ].
Qed.

Lemma message_flow_order_witness :
  List.filter is_message_flow (trace (run Sample.env (Sample.say "hi") Sample.chatting))
  = [EStore (InsertMessage "alice" "alice_00000001" "user" "hi") Sample.two_chats;
     EAgent (agent_executor [HumanMessage "m2"; AIMessage "m3"; HumanMessage "m4"])
            "hi"
            (Db.insert_message "alice" "alice_00000001" "user" "hi" Sample.two_chats).2
            (Some "re:hi");
     EStore (InsertMessage "alice" "alice_00000001" "assistant" "re:hi")
            (Db.insert_message "alice" "alice_00000001" "user" "hi" Sample.two_chats).2].
Proof.
  destruct (message_flow_order Sample.env (Sample.say "hi") Sample.chatting wf_two_chats)
    as [H | [H | H]].
  - by vm_compute in H.
  - destruct H as (u & c & g & st & H & _). by vm_compute in H.
  - by vm_compute.
Defined.

(* ===================================================================== *)
(** * The windows over the history *)
(* ===================================================================== *)

Lemma last_n_suffix {A : Type} (k : nat) (l : list A) :
  (take (length l - k) l ++ Db.last_n k l)%list = l.
Proof. unfold Db.last_n. apply take_drop. Qed.

Lemma last_n_length {A : Type} (k : nat) (l : list A) :
  length (Db.last_n k l) = (k `min` length l)%nat.
Proof. unfold Db.last_n. rewrite length_drop. lia. Qed.

Lemma last_n_rev_take {A : Type} (k : nat) (l : list A) :
  Db.last_n k l = rev (take k (rev l)).
Proof.
  unfold Db.last_n. by rewrite firstn_rev, rev_involutive.
Qed.

(** The events before the display of the history. *)
Ltac before_display l :=
  lazymatch l with
  | EStore (GetChatHistory _ 10) _ :: _ => constr:(@nil Event)
  | ?a :: ?l' => let p := before_display l' in constr:(a :: p)
  end.

Ltac explicit_trace :=
  cbn [rev app]; rewrite ?rev_app_distr, ?rev_involutive; cbn [rev app];
  rewrite <- ?app_assoc; cbn [rev app].

(** The chat messages of a page, read off its trace. *)
Lemma shown_messages_app (t t' : list Event) :
  shown_messages (t ++ t') = (shown_messages t ++ shown_messages t')%list.
Proof.
  induction t as [|e t IH]; simpl; [done |].
  destruct e as [[]| |]; simpl; by rewrite ?IH.
Qed.

Lemma shown_messages_displayed (h : list (string * string)) :
  shown_messages (map (λ m, EUi (ChatMessage m.1 m.2)) h) = h.
Proof. induction h as [|[r m] h IH]; simpl; [done |]. by rewrite IH. Qed.

Ltac read_page :=
  explicit_trace; cbn [shown_messages];
  rewrite ?shown_messages_app, ?shown_messages_displayed; cbn [shown_messages].

(** C9. The history of the active chat is read twice, with [n=3] for the
    memory of the agent and with [n=10] for the page, and never otherwise.
    The memory of every invocation of the agent is made of the last three
    messages of the active chat, oldest first; the page shows, below the
    header, the last ten messages of the active chat, oldest first, and
    after them only what the handling of a newly submitted message writes.
    Every execution that reaches the message view (it ends normally, or
    with the exception of the agent, in an authenticated session) does read
    the active chat with [n=3] and with [n=10], on the store it found, and
    the chat messages it writes on the page are the last ten messages of
    that chat followed by nothing, or by the submitted message and what
    follows it.  The last [k] messages are a suffix of the history, of
    length [k] or the whole history when it is shorter. *)
Theorem history_windows (env : Env) (w : Widgets) (s : State) :
  let e := run env w s in
  (∀ c n before, EStore (GetChatHistory c n) before ∈ trace e → n = 3 ∨ n = 10)
  ∧ (∀ ex input st out,
       EAgent ex input st out ∈ trace e →
       ∃ c before,
         ss_chat_id (session (final e)) = Some (Some c)
         ∧ EStore (GetChatHistory c 3) before ∈ trace e
         ∧ ae_memory ex = map to_langchain (Db.last_n 3 (Db.chat_messages c before)))
  ∧ (∀ c before,
       EStore (GetChatHistory c 10) before ∈ trace e →
       ss_chat_id (session (final e)) = Some (Some c)
       ∧ ∃ pre post,
           trace e
           = (pre ++ EStore (GetChatHistory c 10) before
                  :: map (λ m, EUi (ChatMessage m.1 m.2))
                         (Db.last_n 10 (Db.chat_messages c before))
                  ++ post)%list
           ∧ (∀ r m, EUi (ChatMessage r m) ∉ pre)
           ∧ (post = []
              ∨ ∃ x rest, chat_input w = Some x
                          ∧ post = EUi (ChatMessage "user" x) :: rest))
  ∧ (wf_store (store s) → is_authenticated (session s) = true →
     outcome e = Done ∨ outcome e = Raised AgentFailure →
     ∃ c rest,
       ss_chat_id (session (final e)) = Some (Some c)
       ∧ EStore (GetChatHistory c 3) (store s) ∈ trace e
       ∧ EStore (GetChatHistory c 10) (store s) ∈ trace e
       ∧ shown_messages (trace e)
         = (Db.last_n 10 (Db.chat_messages c (store s)) ++ rest)%list
       ∧ (rest = [] ∨ ∃ x tail, chat_input w = Some x ∧ rest = ("user", x) :: tail))
  ∧ (∀ (k : nat) (l : list (string * string)),
       (take (length l - k) l ++ Db.last_n k l)%list = l
       ∧ length (Db.last_n k l) = (k `min` length l)%nat
       ∧ Db.last_n k l = rev (take k (rev l))).
Proof.
  intros e. subst e. destruct s as [st0 [a us n c0] k].
  split; [|split; [|split; [|split]]].
  - intros c n' before. all_paths.
    all: intros H; each_event H.
    all: injection H as -> -> ->; auto.
  - intros ex input st out. all_paths.
    all: intros H; each_event H.
    all: injection H as -> -> -> ->.
    all: eexists _, _; split; [reflexivity |]; split; [|reflexivity].
    all: in_trace.
  - intros c before. all_paths.
    all: intros H; pose proof H as H'; each_event H'.
    all: injection H' as -> ->.
    all: clear H.
    all: split; [done |].
    all: explicit_trace.
    all: match goal with
         | |- ∃ pre post, ?L = _ ∧ _ => let p := before_display L in exists p
         end.
    all: first [ eexists; split; [reflexivity |]
               | exists []; split; [by rewrite app_nil_r |] ].
    all: split; [intros r m H; by each_event H |].
    all: first [by left | right; eexists _, _; split; reflexivity].
  - unfold is_authenticated. cbn [session store ss_authenticated].
    intros Hwf. destruct a as [[|]|]; try done. intros _.
    wp_start. wp_auto. all: wp_leaf.
    all: intros [Ho | Ho]; try discriminate Ho.
    all: selected_chat_facts Hwf.
    all: eexists _, _; split; [reflexivity |].
    all: split; [in_trace |]; split; [in_trace |].
    all: read_page.
    all: first [ split; [reflexivity |];
                 first [ by left
                       | right; eexists _, _; split; first [reflexivity | eassumption] ]
               | split; [symmetry; apply app_nil_r | by left] ].
  - intros k' l. split; [apply last_n_suffix |].
    split; [apply last_n_length | apply last_n_rev_take].
Qed.

Lemma wf_twelve_messages : wf_store Sample.twelve_messages.
Proof.
  split; repeat constructor; try done.
  by exists "00000001".
Qed.

Lemma history_windows_witness :
  (∃ c before,
     ss_chat_id (session (final (run Sample.env (Sample.say "hi") Sample.busy)))
     = Some (Some c)
     ∧ EStore (GetChatHistory c 3) before
       ∈ trace (run Sample.env (Sample.say "hi") Sample.busy)
     ∧ [AIMessage "m10"; HumanMessage "m11"; AIMessage "m12"]
       = map to_langchain (Db.last_n 3 (Db.chat_messages c before)))
  ∧ shown_messages (trace (run Sample.env Sample.idle Sample.busy))
    = [("assistant", "m03"); ("user", "m04"); ("assistant", "m05"); ("user", "m06");
       ("assistant", "m07"); ("user", "m08"); ("assistant", "m09");
       ("assistant", "m10"); ("user", "m11"); ("assistant", "m12")].
Proof.
  split.
  - assert (Hin : EAgent (agent_executor
                            [AIMessage "m10"; HumanMessage "m11"; AIMessage "m12"])
                    "hi"
                    (Db.insert_message "alice" "alice_00000001" "user" "hi"
                       Sample.twelve_messages).2
                    (Some "re:hi")
                  ∈ trace (run Sample.env (Sample.say "hi") Sample.busy)).
    { set (t := trace _). vm_compute in t. subst t. pick_event. }
    destruct (history_windows Sample.env (Sample.say "hi") Sample.busy) as (_ & H & _).
    exact (H _ _ _ _ Hin).
  - destruct (history_windows Sample.env Sample.idle Sample.busy) as (_ & _ & _ & H & _).
    destruct (H wf_twelve_messages eq_refl)
      as (c & rest & Hc & _ & _ & Hshown & [-> | (x & tail & Hx & _)]);
      [left; by vm_compute | | discriminate Hx].
    rewrite Hshown, app_nil_r.
    assert (c = "alice_00000001") as -> by (vm_compute in Hc; congruence).
    by vm_compute.
Defined.

(* ===================================================================== *)
(** * The executions started by [st.rerun()] *)
(* ===================================================================== *)

Lemma quiet_after_rerun (w : Widgets) : quiet (after_rerun w).
Proof. by repeat split. Qed.

Lemma selected_after_rerun (u : string) (w : Widgets) (s : Store) :
  selected_chat u (after_rerun w) s = selected_chat u w s.
Proof. done. Qed.

Lemma radio_lt (n chosen : nat) : (0 < n)%nat → (radio n chosen < n)%nat.
Proof. unfold radio. intros Hn. destruct (Nat.ltb_spec chosen n); lia. Qed.

Lemma selected_chat_some (u : string) (w : Widgets) (s : Store) :
  Db.get_all_chat_ids_for_user u s ≠ [] → ∃ c, selected_chat u w s = Some c.
Proof.
  intros Hne. unfold selected_chat. apply lookup_lt_is_Some_2, radio_lt.
  rewrite length_map. destruct (Db.get_all_chat_ids_for_user u s); [done | simpl; lia].
Qed.

Ltac known Hsel :=
  unfold selected_chat in Hsel;
  try match goal with
  | H : map fst (Db.get_all_chat_ids_for_user _ _) = _ |- _ => rewrite H in Hsel
  end;
  try congruence; try (by simpl in Hsel).

(** A run nobody has pressed anything for, in the session of [u] whose
    chats are not empty: the chat selected in the side bar becomes the
    active chat. *)
Lemma run_quiet_select (env : Env) (w : Widgets) (s : State) (u c : string) :
  app_is_down env = false → authenticated_as u (session s) → quiet w →
  wf_store (store s) →
  selected_chat u w (store s) = Some c →
  let e := run env w s in
  store (final e) = store s
  ∧ uuid_calls (final e) = uuid_calls s
  ∧ session (final e) = with_chat_id (session s) (Some c)
  ∧ (outcome e = Done ∨ outcome e = Rerunning)
  ∧ (ss_chat_id (session s) = None ∨ ss_chat_id (session s) = Some (Some c) ↔
     outcome e = Done)
  ∧ (∀ c' n before, EStore (GetChatHistory c' n) before ∈ trace e →
                    c' = c ∧ before = store s).
Proof.
  intros Hup (Ha & Hu & Hn) (Hq1 & Hq2 & Hq3 & Hq4 & Hq5 & Hq6 & Hq7) Hwf Hsel e. subst e.
  destruct s as [st0 [a us n c0] k].
  cbn [store session uuid_calls ss_authenticated ss_username ss_name ss_chat_id] in *.
  destruct n as [n|]; [|done]. subst a us.
  wp_start. wp_auto. all: wp_leaf.
  all: try congruence.
  all: known Hsel.
  all: selected_chat_facts Hwf.
  all: match goal with H : _ !! _ = Some ?x |- _ => assert (x = c) as -> by congruence end.
  all: repeat split; auto; try done.
  all: try (match goal with
            | H : EStore _ _ ∈ _ |- _ => each_event H; by injection H as -> _ ->
            end).
  intros [H | H]; [done |]. injection H as ->.
  rewrite Htruthy in Heqb4. by rewrite bool_decide_eq_true_2 in Heqb4.
Qed.

(** The execution of the session of [u] when [u] has no chat: a chat is
    created with its greeting, whatever the widgets say. *)
Lemma run_create_first_chat (env : Env) (w : Widgets) (s : State) (u : string) :
  app_is_down env = false → authenticated_as u (session s) →
  Db.get_all_chat_ids_for_user u (store s) = [] →
  let cid := u +:+ "_" +:+ Py.prefix 8 (Py.uuid_hex (uuid4 env (uuid_calls s))) in
  let e := run env w s in
  outcome e = Rerunning
  ∧ store (final e)
    = (Db.insert_message u cid "assistant" (greeting_no_chats (Some u)) (store s)).2
  ∧ uuid_calls (final e) = S (uuid_calls s)
  ∧ session (final e) = with_chat_id (session s) (Some cid)
  ∧ (∀ c n before, EStore (GetChatHistory c n) before ∉ trace e).
Proof.
  intros Hup (Ha & Hu & Hn) Hnone cid e. subst cid e.
  destruct s as [st0 [a us n c0] k].
  cbn [store session uuid_calls ss_authenticated ss_username ss_name ss_chat_id] in *.
  destruct n as [n|]; [|done]. subst a us.
  wp_start. unfold availability_control. rewrite Hup. wp_steps.
  unfold authenticated_view. cbv zeta. wp_steps. rewrite Hnone. cbn [map].
  wp_auto. wp_leaf. repeat split; try done.
  intros c n' before H. by each_event H.
Qed.

Lemma no_messages_without_chat (c : string) (s : Store) :
  wf_store s → Db.chat_owner c s = None → Db.chat_messages c s = [].
Proof.
  intros [_ Hm] Ho. unfold Db.chat_messages, Db.chat_owner in *.
  destruct (Db.find_chat c (st_chats s)) eqn:Hfind; [done |].
  revert Hm. generalize (st_messages s) as ms.
  induction ms as [|m ms IH]; intros Hm; simpl; [done |].
  inversion Hm as [|? ? Hm1 Hm2]; subst.
  destruct (String.eqb_spec (msg_chat_id m) c) as [Heq | Hne].
  - exfalso. apply Hm1. by rewrite Heq.
  - by apply IH.
Qed.

Lemma first_chat_inserted (u cid g : string) (s : Store) :
  wf_store s → wf_chat_id u cid → Db.get_all_chat_ids_for_user u s = [] →
  let s' := (Db.insert_message u cid "assistant" g s).2 in
  wf_store s'
  ∧ Db.get_all_chat_ids_for_user u s' = [(cid, None)]
  ∧ Db.chat_owner cid s' = Some u
  ∧ Db.chat_messages cid s' = [("assistant", g)].
Proof.
  intros Hwf Hid Hnone s'. subst s'.
  assert (Ho : Db.chat_owner cid s = None).
  { destruct (Db.chat_owner cid s) as [o|] eqn:Ho; [|done].
    pose proof (chat_owner_wf _ _ _ Hwf Ho) as Ho'.
    rewrite (wf_chat_id_owner _ _ _ Ho' Hid) in Ho.
    apply owned_listed in Ho. rewrite Hnone in Ho. inversion Ho. }
  split; [by apply wf_insert_message |].
  pose proof (no_messages_without_chat _ _ Hwf Ho) as Hmsgs.
  unfold Db.insert_message. rewrite Ho.
  unfold Db.get_all_chat_ids_for_user, Db.chat_owner, Db.chat_messages in *. simpl.
  rewrite !List.filter_app, !map_app. simpl. rewrite !String.eqb_refl. simpl.
  apply fmap_nil_inv in Hnone. rewrite Hnone, Hmsgs. split; [done |]. split; [|done].
  rewrite find_chat_app. unfold Db.chat_owner in Ho.
  destruct (Db.find_chat cid (st_chats s)); [done |]. simpl. by rewrite String.eqb_refl.
Qed.


(** A successful login. *)
Lemma run_login (env : Env) (w : Widgets) (s : State) (user : User) :
  app_is_down env = false → anonymous (session s) → login_btn w = true →
  Db.verify_user_credentials (password_hash env) (username_input w) (password_input w)
    (store s) = true →
  Db.get_user_by_username (username_input w) (store s) = Some user →
  let e := run env w s in
  outcome e = Rerunning
  ∧ store (final e) = store s
  ∧ uuid_calls (final e) = S (uuid_calls s)
  ∧ session (final e)
    = mkSession (Some true) (Some (Some (user_username user)))
        (Some (Some (user_full_name user)))
        (Some (Some (user_username user +:+ "_"
                     +:+ Py.prefix 8 (Py.uuid_hex (uuid4 env (uuid_calls s)))))).
Proof.
  intros Hup Hanon Hbtn Hok Huser e. subst e. destruct s as [st [a u n c] k].
  cbn [store session uuid_calls] in *.
  destruct a as [[|]|]; [done | |].
  all: wp_start; unfold availability_control; rewrite Hup; wp_steps.
  all: unfold login; rewrite Hbtn; wp_steps; rewrite Hok; wp_steps.
  all: rewrite Huser; wp_steps; by wp_leaf.
Qed.

Lemma settle_rerun (fuel : nat) (env : Env) (w : Widgets) (s : State) :
  outcome (run env w s) = Rerunning →
  settle (S fuel) env w s
  = mkExecution (outcome (settle fuel env (after_rerun w) (final (run env w s))))
                (final (settle fuel env (after_rerun w) (final (run env w s))))
                (trace (run env w s)
                 ++ trace (settle fuel env (after_rerun w) (final (run env w s)))).
Proof. intros H. simpl. by rewrite H. Qed.

Lemma settle_done (fuel : nat) (env : Env) (w : Widgets) (s : State) :
  outcome (run env w s) = Done → settle fuel env w s = run env w s.
Proof. intros H. destruct fuel; simpl; [done |]. by rewrite H. Qed.

Lemma settle_0 (env : Env) (w : Widgets) (s : State) : settle 0 env w s = run env w s.
Proof. done. Qed.

(** After at most one more execution, a session of [u] that nobody
    presses anything in shows one of the chats of [u]. *)
Lemma settle_quiet (env : Env) (w : Widgets) (s : State) (u c : string) (fuel : nat) :
  app_is_down env = false → authenticated_as u (session s) → quiet w →
  wf_store (store s) → selected_chat u w (store s) = Some c →
  let e := settle (S fuel) env w s in
  outcome e = Done
  ∧ store (final e) = store s
  ∧ session (final e) = with_chat_id (session s) (Some c)
  ∧ (∀ c' n before, EStore (GetChatHistory c' n) before ∈ trace e →
                    c' = c ∧ before = store s).
Proof.
  intros Hup Hauth Hq Hwf Hsel e. subst e.
  destruct (run_quiet_select env w s u c Hup Hauth Hq Hwf Hsel)
    as (Hst & Huu & Hss & [Hdone | Hrerun] & Hiff & Htr).
  - rewrite settle_done by done. split; [done |]. split; [done |]. by split.
  - rewrite settle_rerun by done. cbn [outcome final].
    set (s1 := final (run env w s)) in *.
    assert (Hauth1 : authenticated_as u (session s1)).
    { rewrite Hss. destruct Hauth as (? & ? & ?). by repeat split. }
    assert (Hsel1 : selected_chat u (after_rerun w) (store s1) = Some c)
      by (by rewrite Hst).
    assert (Hwf1 : wf_store (store s1)) by (by rewrite Hst).
    destruct (run_quiet_select env (after_rerun w) s1 u c Hup Hauth1
                (quiet_after_rerun w) Hwf1 Hsel1) as (Hst' & _ & Hss' & _ & Hiff' & Htr').
    assert (Hd : outcome (run env (after_rerun w) s1) = Done).
    { apply Hiff'. right. by rewrite Hss. }
    rewrite settle_done by done. cbn [trace]. rewrite Hst', Hss', Hst, Hss.
    split; [done |]. split; [done |]. split; [done |].
    intros c' n before [H | H]%elem_of_app; [by apply (Htr _ n) |].
    destruct (Htr' _ _ _ H) as [? ?]. split; [done |]. by rewrite <- Hst.
Qed.

(* ===================================================================== *)
(** * The first chat and the new chats *)
(* ===================================================================== *)

Lemma selected_single (u : string) (w : Widgets) (s : Store) (c : string) (n : option string) :
  Db.get_all_chat_ids_for_user u s = [(c, n)] → selected_chat u w s = Some c.
Proof.
  intros H. unfold selected_chat. rewrite H. simpl. unfold radio.
  by destruct (chosen_idx w) as [|[|i]].
Qed.

Lemma selected_owned (u : string) (w : Widgets) (s : Store) (c : string) :
  wf_store s → selected_chat u w s = Some c → Db.chat_owner c s = Some u.
Proof. intros Hwf Hsel. by destruct (listed_owned _ _ _ _ Hwf Hsel). Qed.



(* ===================================================================== *)
(** * Deleting a chat *)
(* ===================================================================== *)

Lemma delete_chat_removed (c u : string) (s : Store) :
  wf_store s → Db.chat_owner c s = Some u →
  let s' := (Db.delete_chat c s).2 in
  wf_store s' ∧ Db.chat_owner c s' = None ∧ Db.chat_messages c s' = [].
Proof.
  intros Hwf Ho s'. subst s'. split; [by apply wf_delete_chat |].
  assert (Hnone : Db.chat_owner c (Db.delete_chat c s).2 = None).
  { unfold Db.delete_chat, Db.chat_owner in *.
    destruct (Db.find_chat c (st_chats s)); [|done]. simpl.
    by rewrite find_chat_delete_eq. }
  split; [done |]. apply no_messages_without_chat; [by apply wf_delete_chat | done].
Qed.

(** Pressing Delete in the session of [u]. *)
Lemma run_delete (env : Env) (w : Widgets) (s : State) (u c : string) :
  app_is_down env = false → authenticated_as u (session s) → wf_store (store s) →
  save_name_btn w = false → delete_chat_btn w = true →
  selected_chat u w (store s) = Some c →
  let e := run env w s in
  outcome e = Rerunning
  ∧ store (final e) = (Db.delete_chat c (store s)).2
  ∧ uuid_calls (final e) = uuid_calls s
  ∧ session (final e) = with_chat_id (session s) None
  ∧ (∀ c' n before, EStore (GetChatHistory c' n) before ∉ trace e).
Proof.
  intros Hup (Ha & Hu & Hn) Hwf Hsave Hdel Hsel e. subst e.
  destruct s as [st0 [a us n c0] k].
  cbn [store session uuid_calls ss_authenticated ss_username ss_name ss_chat_id] in *.
  destruct n as [n|]; [|done]. subst a us.
  wp_start. wp_auto. all: wp_leaf.
  all: try congruence.
  all: known Hsel.
  all: selected_chat_facts Hwf.
  all: match goal with H : _ !! _ = Some ?x |- _ => assert (x = c) as -> by congruence end.
  all: repeat split; try done.
  all: intros c' n' before H; by each_event H.
Qed.

(** C7. Deleting the chat selected in the side bar, in particular the
    active chat, removes the chat and its messages, clears the active chat
    and runs the script again without showing the message view.  The
    executions that follow end on the message view of another chat of the
    user: one of the chats that remain, or, when none remains, a chat just
    created that holds the greeting alone.  Every history read on the way is
    read from that chat, which exists when it is read. *)
Theorem delete_then_reselect (env : Env) (w : Widgets) (s : State) (u c : string) :
  wf_store (store s) → app_is_down env = false → authenticated_as u (session s) →
  save_name_btn w = false → delete_chat_btn w = true →
  selected_chat u w (store s) = Some c →
  let e1 := run env w s in
  let e := settle 2 env w s in
  (outcome e1 = Rerunning
   ∧ ss_chat_id (session (final e1)) = Some None
   ∧ Db.chat_owner c (store (final e1)) = None
   ∧ Db.chat_messages c (store (final e1)) = []
   ∧ (∀ c' n before, EStore (GetChatHistory c' n) before ∉ trace e1))
  ∧ outcome e = Done
  ∧ ∃ c',
      ss_chat_id (session (final e)) = Some (Some c')
      ∧ Db.chat_owner c' (store (final e)) = Some u
      ∧ (c' ∈ map fst (Db.get_all_chat_ids_for_user u (store (final e1)))
         ∧ c' ≠ c ∧ store (final e) = store (final e1)
         ∨ Db.get_all_chat_ids_for_user u (store (final e1)) = []
           ∧ Db.chat_messages c' (store (final e))
             = [("assistant", greeting_no_chats (Some u))])
      ∧ (∀ c'' n before,
           EStore (GetChatHistory c'' n) before ∈ trace e →
           c'' = c' ∧ Db.chat_owner c'' before = Some u).
Proof.
  intros Hwf Hup Hauth Hsave Hdel Hsel e1 e. subst e1 e.
  pose proof (selected_owned _ _ _ _ Hwf Hsel) as Hown.
  destruct (run_delete env w s u c Hup Hauth Hwf Hsave Hdel Hsel)
    as (Ho1 & Hst1 & Hu1 & Hss1 & Htr1).
  destruct (delete_chat_removed c u (store s) Hwf Hown) as (Hwf1 & Hgone & Hnomsg).
  rewrite <- Hst1 in Hwf1, Hgone, Hnomsg.
  split; [split; [done |]; split; [by rewrite Hss1 |]; by repeat split |].
  rewrite settle_rerun by done. cbn [outcome final trace].
  set (s1 := final (run env w s)) in *.
  assert (Hauth1 : authenticated_as u (session s1)).
  { rewrite Hss1. destruct Hauth as (? & ? & ?). by repeat split. }
  destruct (Db.get_all_chat_ids_for_user u (store s1)) as [|x xs] eqn:Hchats.
  - destruct (run_create_first_chat env (after_rerun w) s1 u Hup Hauth1 Hchats)
      as (Ho2 & Hst2 & Hu2 & Hss2 & Htr2).
    rewrite settle_rerun by done. cbn [outcome final trace]. rewrite settle_0.
    set (s2 := final (run env (after_rerun w) s1)) in *.
    set (cid := u +:+ "_" +:+ Py.prefix 8 (Py.uuid_hex (uuid4 env (uuid_calls s1)))) in *.
    destruct (first_chat_inserted u cid (greeting_no_chats (Some u)) (store s1) Hwf1
                (wf_chat_id_new u _) Hchats) as (Hwf2 & Hlist & Hown2 & Hmsgs).
    rewrite <- Hst2 in Hwf2, Hlist, Hown2, Hmsgs.
    assert (Hauth2 : authenticated_as u (session s2)).
    { rewrite Hss2. destruct Hauth1 as (? & ? & ?). by repeat split. }
    pose proof (selected_single u (after_rerun (after_rerun w)) _ _ _ Hlist) as Hsel2.
    destruct (run_quiet_select env (after_rerun (after_rerun w)) s2 u cid Hup Hauth2
                (quiet_after_rerun _) Hwf2 Hsel2) as (Hst3 & _ & Hss3 & _ & Hiff & Htr3).
    rewrite Hst3, Hss3. split; [apply Hiff; right; by rewrite Hss2 |].
    exists cid. split; [done |]. split; [done |]. split; [by right |].
    intros c'' n before [H | [H | H]%elem_of_app]%elem_of_app.
    + by destruct (Htr1 _ _ _ H).
    + by destruct (Htr2 _ _ _ H).
    + destruct (Htr3 _ _ _ H) as [-> ->]. by split.
  - assert (Hne : Db.get_all_chat_ids_for_user u (store s1) ≠ []) by (by rewrite Hchats).
    destruct (selected_chat_some u (after_rerun w) (store s1) Hne) as [c' Hsel1].
    destruct (settle_quiet env (after_rerun w) s1 u c' 0 Hup Hauth1
                (quiet_after_rerun _) Hwf1 Hsel1) as (Ho & Hst & Hss & Htr).
    pose proof (selected_owned _ _ _ _ Hwf1 Hsel1) as Hown1.
    rewrite Ho, Hst, Hss. split; [done |].
    exists c'. split; [done |]. split; [done |]. split.
    + left. split; [rewrite <- Hchats; by apply owned_listed |]. split; [|done].
      intros ->. by rewrite Hgone in Hown1.
    + intros c'' n before [H | H]%elem_of_app.
      * by destruct (Htr1 _ _ _ H).
      * destruct (Htr _ _ _ H) as [-> ->]. by split.
Qed.

Lemma delete_then_reselect_witness :
  ss_chat_id (session (final (run Sample.env Sample.press_delete Sample.chatting)))
  = Some None
  ∧ outcome (settle 2 Sample.env Sample.press_delete Sample.chatting) = Done
  ∧ ss_chat_id (session (final (settle 2 Sample.env Sample.press_delete Sample.chatting)))
    = Some (Some "alice_00000002").
Proof.
  destruct (delete_then_reselect Sample.env Sample.press_delete Sample.chatting
              "alice" "alice_00000001" wf_two_chats)
    as ((_ & H1 & _) & H2 & c' & H3 & _);
    [reflexivity | by vm_compute | reflexivity | reflexivity | by vm_compute |].
  split; [exact H1 |]. split; [exact H2 |]. by vm_compute.
Defined.

(* ===================================================================== *)
(** * Well-formed stores are all the script produces *)
(* ===================================================================== *)

Lemma run_preserves_wf (env : Env) (w : Widgets) (s : State) :
  wf_store (store s) → wf_store (store (final (run env w s))).
Proof.
  intros Hwf. destruct s as [st0 [a us n c0] k]. cbn [store] in Hwf.
  all_paths.
  all: selected_chat_facts Hwf.
  all: repeat first
         [ assumption
         | apply wf_create_user
         | apply wf_update_chat_name
         | apply wf_delete_chat
         | apply wf_insert_message;
           [| first [ intros _; apply wf_chat_id_new
                    | intros Hnew;
                      first [ by rewrite Hown in Hnew
                            | by rewrite (chat_owner_insert_message _ _ _ _ _ _ _ Hown)
                                in Hnew ] ] ] ].
Qed.

Lemma settle_preserves_wf (fuel : nat) (env : Env) (w : Widgets) (s : State) :
  wf_store (store s) → wf_store (store (final (settle fuel env w s))).
Proof.
  revert w s. induction fuel as [|fuel IH]; intros w s Hwf; simpl.
  - by apply run_preserves_wf.
  - destruct (outcome (run env w s)); try by apply run_preserves_wf.
    cbn [final]. by apply IH, run_preserves_wf.
Qed.

Lemma interact_preserves_wf (fuel : nat) (env : Env) (ws : list Widgets) (s : State) :
  wf_store (store s) →
  Forall (λ e, wf_store (store (final e))) (interact fuel env ws s).
Proof.
  revert s. induction ws as [|w ws IH]; intros s Hwf; simpl; constructor.
  - by apply settle_preserves_wf.
  - by apply IH, settle_preserves_wf.
Qed.

(* ===================================================================== *)
(** * The states the script reaches *)
(* ===================================================================== *)










(* ===================================================================== *)
(** * What an execution leaves alone *)
(* ===================================================================== *)

Lemma create_user_chats (hash : string → string) (u n e p : string) (s : Store) :
  st_chats (Db.create_user hash u n e p s).2 = st_chats s
  ∧ st_messages (Db.create_user hash u n e p s).2 = st_messages s.
Proof. unfold Db.create_user. by destruct (st_users s !! u). Qed.

Ltac same_users :=
  repeat first
    [ reflexivity
    | rewrite insert_message_users
    | rewrite (proj1 (update_chat_name_users _ _ _))
    | rewrite delete_chat_users ].

(** X2. The two halves of the script keep to their store: an execution
    that starts in an anonymous session leaves the chats and the messages
    as they are, and calls the chat store never; an execution that starts in
    an authenticated session leaves the users as they are, and calls the
    credential store never, not even to read. *)
Theorem each_view_keeps_to_its_store (env : Env) (w : Widgets) (s : State) :
  let e := run env w s in
  (anonymous (session s) →
   st_chats (store (final e)) = st_chats (store s)
   ∧ st_messages (store (final e)) = st_messages (store s)
   ∧ ∀ c before, EStore c before ∈ trace e → is_credential_call c = true)
  ∧ (ss_authenticated (session s) = Some true →
     st_users (store (final e)) = st_users (store s)
     ∧ ∀ c before, EStore c before ∈ trace e → is_credential_call c = false).
Proof.
  intros e. subst e. destruct s as [st0 [a us n c0] k]. cbn [store session]. split.
  - intros Hanon. destruct a as [[|]|]; [done | |].
    all: wp_start; wp_auto; wp_leaf.
    all: rewrite ?(proj1 (create_user_chats _ _ _ _ _ _)),
           ?(proj2 (create_user_chats _ _ _ _ _ _)).
    all: split; [done |]; split; [done |].
    all: intros c before H; each_event H; by injection H as -> _.
  - intros Ha. cbn [ss_authenticated] in Ha. subst a.
    wp_start; wp_auto; wp_leaf.
    all: split; [same_users |].
    all: intros c before H; each_event H; by injection H as -> _.
Qed.

Lemma each_view_keeps_to_its_store_witness :
  st_chats (store (final (run Sample.env Sample.register_carol Sample.fresh)))
  = st_chats Sample.registered
  ∧ st_users (store (final (run Sample.env (Sample.say "hi") Sample.chatting)))
    = st_users Sample.two_chats.
Proof.
  split.
  - apply (each_view_keeps_to_its_store Sample.env Sample.register_carol Sample.fresh).
    by vm_compute.
  - apply (each_view_keeps_to_its_store Sample.env (Sample.say "hi") Sample.chatting).
    reflexivity.
Defined.

Lemma appended_refl (k : nat) (s : Store) : appended k s s.
Proof. exists []. split; [by rewrite app_nil_r | simpl; lia]. Qed.

Lemma appended_insert_message (k : nat) (u c r m : string) (s s' : Store) :
  appended k s s' → appended (S k) s (Db.insert_message u c r m s').2.
Proof.
  intros (new & Hnew & Hlen). unfold Db.insert_message.
  destruct (Db.chat_owner c s') as [o|]; [destruct (String.eqb o u) |]; simpl.
  - exists (new ++ [mkMessage c r m])%list.
    rewrite Hnew, <- app_assoc, List.length_app. simpl. split; [done | lia].
  - exists new. split; [done | lia].
  - exists (new ++ [mkMessage c r m])%list.
    rewrite Hnew, <- app_assoc, List.length_app. simpl. split; [done | lia].
Qed.

Lemma appended_update_chat_name (k : nat) (c : string) (n : option string) (s s' : Store) :
  appended k s s' → appended k s (Db.update_chat_name c n s').2.
Proof.
  intros (new & Hnew & Hlen). exists new.
  by rewrite (proj2 (update_chat_name_users _ _ _)).
Qed.

Lemma appended_create_user (k : nat) (hash : string → string) (u n e p : string)
    (s s' : Store) :
  appended k s s' → appended k s (Db.create_user hash u n e p s').2.
Proof.
  intros (new & Hnew & Hlen). exists new.
  by rewrite (proj2 (create_user_chats _ _ _ _ _ _)).
Qed.

(** X3. Unless Delete is pressed, an execution never removes or changes a
    stored message: the messages it finds are a prefix of the messages it
    leaves, and it appends two messages at most. *)
Theorem messages_are_append_only (env : Env) (w : Widgets) (s : State) :
  delete_chat_btn w = false → appended 2 (store s) (store (final (run env w s))).
Proof.
  intros Hdel. destruct s as [st0 [a us n c0] k]. cbn [store].
  all_paths.
  all: try congruence.
  all: repeat first
         [ apply appended_refl
         | apply appended_update_chat_name
         | apply appended_create_user
         | apply appended_insert_message ].
Qed.

Lemma messages_are_append_only_witness :
  appended 2 Sample.two_chats
    (store (final (run Sample.env (Sample.say "hi") Sample.chatting))).
Proof.
  apply (messages_are_append_only Sample.env (Sample.say "hi") Sample.chatting).
  reflexivity.
Defined.

(* ===================================================================== *)
(** * The ways in and out of a session *)
(* ===================================================================== *)

(** X4. A session becomes authenticated in one way only: by an execution
    in which Login was pressed and the credential store verified the
    submitted pair.  The credentials are verified only then, once, with the
    inputs of the form. *)
Theorem authenticated_only_by_login (env : Env) (w : Widgets) (s : State) :
  let e := run env w s in
  (is_authenticated (session s) = false →
   is_authenticated (session (final e)) = true →
   app_is_down env = false ∧ login_btn w = true
   ∧ Db.verify_user_credentials (password_hash env) (username_input w) (password_input w)
       (store s) = true)
  ∧ (∀ u p before,
       EStore (VerifyUserCredentials u p) before ∈ trace e →
       login_btn w = true ∧ is_authenticated (session s) = false
       ∧ u = username_input w ∧ p = password_input w ∧ before = store s
       ∧ List.filter (λ ev, match ev with
                            | EStore (VerifyUserCredentials _ _) _ => true
                            | _ => false
                            end) (trace e)
         = [EStore (VerifyUserCredentials u p) before]).
Proof.
  intros e. subst e. destruct s as [st0 [a us n c0] k]. cbn [store session]. split.
  - unfold is_authenticated at 1. cbn [ss_authenticated]. intros Ha.
    destruct a as [[|]|]; [done | |].
    all: wp_start; wp_auto; wp_leaf.
    all: unfold is_authenticated; cbn [ss_authenticated]; try done.
  - intros u p before. all_paths.
    all: intros H; pose proof H as H'; each_event H'.
    all: injection H' as -> -> ->; clear H.
    all: repeat split; try done.
    all: rewrite List.filter_rev; cbn [List.filter];
         rewrite ?List.filter_app; cbn [List.filter app rev]; reflexivity.
Qed.

Lemma authenticated_only_by_login_witness :
  login_btn Sample.login_alice = true
  ∧ Db.verify_user_credentials (password_hash Sample.env) "alice" "p1" Sample.registered
    = true.
Proof.
  destruct (authenticated_only_by_login Sample.env Sample.login_alice Sample.fresh)
    as [H _].
  destruct H as (_ & H1 & H2); [reflexivity | by vm_compute |]. by split.
Defined.

(** X5. An authenticated session ends in one way only: by an execution in
    which Logout was pressed, while the application is up.  Every other
    execution keeps the user and the name of the session. *)
Theorem deauthenticated_only_by_logout (env : Env) (w : Widgets) (s : State) :
  let e := run env w s in
  is_authenticated (session s) = true →
  (is_authenticated (session (final e)) = false →
   logout_btn w = true ∧ app_is_down env = false ∧ session (final e) = empty_session)
  ∧ (is_authenticated (session (final e)) = true →
     ss_username (session (final e)) = ss_username (session s)
     ∧ ss_name (session (final e)) = ss_name (session s)).
Proof.
  intros e. subst e. destruct s as [st0 [a us n c0] k]. cbn [store session].
  unfold is_authenticated at 1. cbn [ss_authenticated]. intros Ha.
  destruct a as [[|]|]; try done.
  wp_start; wp_auto; wp_leaf.
  all: unfold is_authenticated; cbn [ss_authenticated ss_username ss_name].
  all: by split.
Qed.

Lemma deauthenticated_only_by_logout_witness :
  ss_username (session (final (run Sample.env (Sample.say "hi") Sample.chatting)))
  = Some (Some "alice").
Proof.
  apply (deauthenticated_only_by_logout Sample.env (Sample.say "hi") Sample.chatting);
    by vm_compute.
Defined.

(* ===================================================================== *)
(** * The chat input *)
(* ===================================================================== *)

Lemma bind_ext {A B : Type} (m : M A) (k k' : A → M B) (w : World) :
  (∀ a w', k a w' = k' a w') → bind m k w = bind m k' w.
Proof. intros H. unfold bind. destruct (m w) as [[a|h] w']; [apply H | done]. Qed.

(** X6. An empty chat input is no input: the execution is the one of a
    page on which nothing was submitted (nothing is inserted, the agent is
    not invoked). *)
Theorem empty_input_is_ignored (env : Env) (w : Widgets) (s : State) :
  chat_input w = Some "" →
  run env w s = run env (with_chat_input w None) s.
Proof.
  intros Hin.
  assert (Hh : ∀ ex, handle_input env w ex = handle_input env (with_chat_input w None) ex).
  { intros ex. unfold handle_input. by rewrite Hin. }
  assert (Hs : ∀ world, script env w world = script env (with_chat_input w None) world).
  { intros world. unfold script.
    repeat (apply bind_ext; intros).
    match goal with |- (if ?b then _ else _) _ = _ => destruct b; [|done] end.
    unfold authenticated_view. cbv zeta.
    repeat (apply bind_ext; intros). by rewrite Hh. }
  unfold run. by rewrite Hs.
Qed.

Lemma empty_input_is_ignored_witness :
  run Sample.env (Sample.say "") Sample.chatting = run Sample.env Sample.idle Sample.chatting.
Proof.
  apply (empty_input_is_ignored Sample.env (Sample.say "") Sample.chatting). reflexivity.
Defined.

(** X7. When the invocation of the agent raises, the message of the user
    has been stored and stays stored: the execution ends with the store in
    which that message is the last of the active chat, and nothing else has
    changed. *)
Theorem agent_failure_keeps_user_message (env : Env) (w : Widgets) (s : State) :
  wf_store (store s) →
  outcome (run env w s) = Raised AgentFailure →
  ∃ u c x,
    chat_input w = Some x
    ∧ ss_username (session s) = Some (Some u)
    ∧ ss_chat_id (session (final (run env w s))) = Some (Some c)
    ∧ store (final (run env w s)) = (Db.insert_message u c "user" x (store s)).2
    ∧ Db.chat_messages c (store (final (run env w s)))
      = (Db.chat_messages c (store s) ++ [("user", x)])%list.
Proof.
  intros Hwf. destruct s as [st0 [a us n c0] k]. cbn [store session] in *.
  all_paths.
  all: try (intros [=]; fail).
  all: selected_chat_facts Hwf.
  all: intros _.
  all: eexists _, _, _; split; [reflexivity |]; split; [reflexivity |].
  all: split; [reflexivity |]; split; [reflexivity |].
  all: by apply chat_messages_insert.
Qed.

Lemma agent_failure_keeps_user_message_witness :
  Db.get_chat_history "alice_00000001" 1
    (store (final (run (mkEnv None (uuid4 Sample.env) (password_hash Sample.env)
                          (λ _ _, None))
                       (Sample.say "hi") Sample.chatting)))
  = [("user", "hi")].
Proof.
  destruct (agent_failure_keeps_user_message
              (mkEnv None (uuid4 Sample.env) (password_hash Sample.env) (λ _ _, None))
              (Sample.say "hi") Sample.chatting wf_two_chats)
    as (u & c & x & _); [by vm_compute |].
  by vm_compute.
Defined.

(* ===================================================================== *)
(** * Logout, selection and renaming *)
(* ===================================================================== *)

(** The login page on which nothing is pressed. *)
Lemma run_login_page (env : Env) (w : Widgets) (s : State) :
  app_is_down env = false → anonymous (session s) →
  login_btn w = false → register_btn w = false →
  run env w s
  = mkExecution Done (mkState (store s) (init_session (session s)) (uuid_calls s))
                [EUi (Title "AIGPT"); EUi (Subheader "Login")].
Proof.
  intros Hup Hanon Hlogin Hreg. destruct s as [st0 [a us n c0] k].
  cbn [store session uuid_calls] in *.
  destruct a as [[|]|]; [done | |].
  all: wp_start; unfold availability_control; rewrite Hup; wp_steps.
  all: unfold login; rewrite Hlogin; wp_steps.
  all: unfold registration; rewrite Hreg; wp_steps; by wp_leaf.
Qed.

(** X8. Logout, pressed on the page of a user who has a chat and with no
    button of the side bar that comes before it in the script (Save Name,
    Delete, New Chat), clears the whole session and runs the script again;
    the execution that follows shows the login form to an anonymous session
    that has no active chat, and is the last one.  The stores are not
    touched. *)
Theorem logout_clears_the_session (env : Env) (w : Widgets) (s : State) (u : string) :
  app_is_down env = false → authenticated_as u (session s) → wf_store (store s) →
  Db.get_all_chat_ids_for_user u (store s) ≠ [] →
  save_name_btn w = false → delete_chat_btn w = false → new_chat_btn w = false →
  logout_btn w = true →
  let e1 := run env w s in
  let e := settle 1 env w s in
  outcome e1 = Rerunning
  ∧ session (final e1) = empty_session
  ∧ store (final e1) = store s
  ∧ outcome e = Done
  ∧ session (final e) = mkSession (Some false) (Some None) (Some None) None
  ∧ store (final e) = store s
  ∧ trace e = (trace e1 ++ [EUi (Title "AIGPT"); EUi (Subheader "Login")])%list.
Proof.
  intros Hup (Ha & Hu & Hn) Hwf Hchats Hsave Hdel Hnew Hout e1 e. subst e1 e.
  assert (H1 : outcome (run env w s) = Rerunning
               ∧ session (final (run env w s)) = empty_session
               ∧ store (final (run env w s)) = store s
               ∧ uuid_calls (final (run env w s)) = uuid_calls s).
  { destruct (selected_chat_some u w (store s) Hchats) as [c Hsel].
    destruct s as [st0 [a us n c0] k].
    cbn [store session uuid_calls ss_authenticated ss_username ss_name] in *.
    destruct n as [n|]; [|done]. subst a us.
    wp_start. wp_auto. all: wp_leaf.
    all: try congruence.
    all: known Hsel. }
  destruct H1 as (Ho1 & Hss1 & Hst1 & Hu1).
  split; [done |]. split; [done |]. split; [done |].
  rewrite settle_rerun by done. cbn [outcome final trace]. rewrite settle_0.
  destruct (final (run env w s)) as [st1 ss1 k1] eqn:Hs1. cbn [store session] in *.
  subst st1 ss1.
  rewrite (run_login_page env (after_rerun w)) by done.
  by repeat split.
Qed.

Lemma logout_clears_the_session_witness :
  session (final (run Sample.env
                    (mkWidgets "" "" false "" "" "" "" "" false 0 None
                       false false false true None)
                    Sample.chatting))
  = empty_session.
Proof.
  apply (logout_clears_the_session Sample.env
           (mkWidgets "" "" false "" "" "" "" "" false 0 None false false false true None)
           Sample.chatting "alice");
    try reflexivity; try (by vm_compute). apply wf_two_chats.
Defined.

(** X9. Choosing a chat of the side bar while nothing else is pressed
    makes it the active chat: after one more execution at most, the message
    view is shown for that chat, every history read is read from it, and the
    stores are as before. *)
Theorem selecting_a_chat_activates_it (env : Env) (w : Widgets) (s : State)
    (u c : string) :
  app_is_down env = false → authenticated_as u (session s) → quiet w →
  wf_store (store s) → selected_chat u w (store s) = Some c →
  let e := settle 1 env w s in
  outcome e = Done
  ∧ store (final e) = store s
  ∧ ss_chat_id (session (final e)) = Some (Some c)
  ∧ Db.chat_owner c (store (final e)) = Some u
  ∧ (∀ c' n before, EStore (GetChatHistory c' n) before ∈ trace e →
                    c' = c ∧ before = store s).
Proof.
  intros Hup Hauth Hq Hwf Hsel e. subst e.
  destruct (settle_quiet env w s u c 0 Hup Hauth Hq Hwf Hsel) as (Ho & Hst & Hss & Htr).
  rewrite Ho, Hst, Hss. split; [done |]. split; [done |]. split; [done |].
  split; [by apply (selected_owned u w) | done].
Qed.

Lemma selecting_a_chat_activates_it_witness :
  ss_chat_id (session (final (settle 1 Sample.env
                                (mkWidgets "" "" false "" "" "" "" "" false 1 None
                                   false false false false None)
                                Sample.chatting)))
  = Some (Some "alice_00000002").
Proof.
  apply (selecting_a_chat_activates_it Sample.env
           (mkWidgets "" "" false "" "" "" "" "" false 1 None false false false false None)
           Sample.chatting "alice" "alice_00000002");
    try reflexivity; try (by vm_compute). apply wf_two_chats.
Defined.

Lemma chat_list_after_rename (u c : string) (n : option string) (s : Store) :
  Db.find_chat c (st_chats s) ≠ None →
  Db.get_all_chat_ids_for_user u (Db.update_chat_name c n s).2
  = map (rename_entry c n) (Db.get_all_chat_ids_for_user u s).
Proof.
  intros Hfind. unfold Db.update_chat_name.
  destruct (Db.find_chat c (st_chats s)); [|done]. clear Hfind.
  unfold Db.get_all_chat_ids_for_user. simpl.
  induction (st_chats s) as [|x xs IH]; simpl; [done |].
  destruct (rename_chat_owner c n x) as [Ho Hid]. rewrite Ho.
  destruct (String.eqb (chat_owner_username x) u); simpl; [|done].
  rewrite IH. f_equal. unfold rename_entry, Db.rename_chat. simpl.
  by destruct (String.eqb (chat_chat_id x) c).
Qed.

(** X10. Save Name renames the chat selected in the side bar and runs the
    script again, before Delete, New Chat and Logout are looked at: the
    chat list of the user is the one before with the new name at that chat
    (the text typed, or the current name when nothing was typed), chat
    identifiers, their order, the messages, the users and the session are
    unchanged. *)
Theorem save_name_renames_selected (env : Env) (w : Widgets) (s : State) (u c : string) :
  app_is_down env = false → authenticated_as u (session s) → wf_store (store s) →
  save_name_btn w = true → selected_chat u w (store s) = Some c →
  let new_name :=
    match rename_text w with
    | Some text => Some text
    | None => Py.dict_get (Db.get_all_chat_ids_for_user u (store s)) c (Some "")
    end in
  let e := run env w s in
  outcome e = Rerunning
  ∧ session (final e) = session s
  ∧ store (final e) = (Db.update_chat_name c new_name (store s)).2
  ∧ Db.get_all_chat_ids_for_user u (store (final e))
    = map (rename_entry c new_name) (Db.get_all_chat_ids_for_user u (store s))
  ∧ map fst (Db.get_all_chat_ids_for_user u (store (final e)))
    = map fst (Db.get_all_chat_ids_for_user u (store s))
  ∧ st_messages (store (final e)) = st_messages (store s)
  ∧ st_users (store (final e)) = st_users (store s)
  ∧ (∀ c' before, EStore (DeleteChat c') before ∉ trace e).
Proof.
  intros Hup (Ha & Hu & Hn) Hwf Hsave Hsel new_name e. subst new_name e.
  pose proof (selected_owned _ _ _ _ Hwf Hsel) as Hown.
  assert (Hfind : Db.find_chat c (st_chats (store s)) ≠ None).
  { unfold Db.chat_owner in Hown. by destruct (Db.find_chat c (st_chats (store s))). }
  assert (H : outcome (run env w s) = Rerunning
              ∧ session (final (run env w s)) = session s
              ∧ store (final (run env w s))
                = (Db.update_chat_name c
                     match rename_text w with
                     | Some text => Some text
                     | None => Py.dict_get (Db.get_all_chat_ids_for_user u (store s)) c
                                 (Some "")
                     end (store s)).2
              ∧ (∀ c' before, EStore (DeleteChat c') before ∉ trace (run env w s))).
  { destruct s as [st0 [a us n c0] k].
    cbn [store session uuid_calls ss_authenticated ss_username ss_name] in *.
    destruct n as [n|]; [|done]. subst a us.
    wp_start. unfold availability_control. rewrite Hup. wp_steps.
    unfold authenticated_view. cbv zeta. wp_steps.
    unfold selected_chat in Hsel.
    destruct (map fst (Db.get_all_chat_ids_for_user u st0)) as [|x xs] eqn:Hids; [done |].
    wp_steps. rewrite Hsel. wp_steps. unfold manage_chat. cbv zeta. rewrite Hsave.
    wp_steps. rewrite (update_chat_name_owned _ _ _ _ Hown). wp_steps. wp_leaf.
    repeat split; try done. intros c' before H. by each_event H. }
  destruct H as (Ho & Hss & Hst & Htr). rewrite Hst.
  split; [done |]. split; [done |]. split; [done |].
  rewrite chat_list_after_rename by done.
  split; [done |]. split.
  { rewrite <- list_fmap_compose. apply list_fmap_ext. intros i [c' n'] _. simpl.
    unfold rename_entry. simpl. by destruct (String.eqb c' c). }
  split; [apply update_chat_name_users |]. split; [apply update_chat_name_users | done].
Qed.

Lemma save_name_renames_selected_witness :
  Db.get_all_chat_ids_for_user "alice"
    (store (final (run Sample.env
                     (mkWidgets "" "" false "" "" "" "" "" false 1 (Some "Work")
                        true true false false None)
                     Sample.chatting)))
  = [("alice_00000001", Some "Trip"); ("alice_00000002", Some "Work")].
Proof.
  destruct (save_name_renames_selected Sample.env
              (mkWidgets "" "" false "" "" "" "" "" false 1 (Some "Work")
                 true true false false None)
              Sample.chatting "alice" "alice_00000002")
    as (_ & _ & _ & H & _);
    [reflexivity | by vm_compute | apply wf_two_chats | reflexivity | by vm_compute |].
  rewrite H. by vm_compute.
Defined.

(* ===================================================================== *)
(** * Registration, then login *)
(* ===================================================================== *)

(** X11. A user who has just registered can log in: after a registration
    that passes both guards, a login with the chosen username and password
    authenticates the session under that username and the full name given;
    a login with a password whose hash differs leaves the session
    anonymous. *)
Theorem registered_user_can_log_in (env : Env) (w1 w2 : Widgets) (s : State) :
  app_is_down env = false → anonymous (session s) →
  login_btn w1 = false → register_btn w1 = true →
  new_password w1 = confirm_password w1 →
  Db.get_user_by_username (new_username w1) (store s) = None →
  login_btn w2 = true → username_input w2 = new_username w1 →
  let s1 := final (run env w1 s) in
  let e2 := run env w2 s1 in
  Db.get_user_by_username (new_username w1) (store s1)
  = Some (mkUser (new_username w1) (new_name w1) (new_email w1)
            (password_hash env (new_password w1)))
  ∧ (password_input w2 = new_password w1 →
     outcome e2 = Rerunning
     ∧ ss_authenticated (session (final e2)) = Some true
     ∧ ss_username (session (final e2)) = Some (Some (new_username w1))
     ∧ ss_name (session (final e2)) = Some (Some (new_name w1)))
  ∧ (password_hash env (password_input w2) ≠ password_hash env (new_password w1) →
     is_authenticated (session (final e2)) = false).
Proof.
  intros Hup Hanon Hl1 Hr1 Hpw Hfree Hl2 Hname s1 e2. subst s1 e2.
  assert (H1 : store (final (run env w1 s))
               = (Db.create_user (password_hash env) (new_username w1) (new_name w1)
                    (new_email w1) (new_password w1) (store s)).2
               ∧ anonymous (session (final (run env w1 s)))).
  { assert (Heq : negb (String.eqb (new_password w1) (confirm_password w1)) = false)
      by (by apply negb_false_iff, String.eqb_eq).
    destruct s as [st0 [a us n c0] k]. cbn [store session uuid_calls] in *.
    destruct a as [[|]|]; [done | |].
    all: wp_start; unfold availability_control; rewrite Hup; wp_steps.
    all: unfold login; rewrite Hl1; wp_steps.
    all: unfold registration; rewrite Hr1, Heq; wp_steps.
    all: rewrite Hfree; wp_auto; by wp_leaf. }
  destruct H1 as [Hst1 Hanon1].
  set (s1 := final (run env w1 s)) in *.
  assert (Huser : Db.get_user_by_username (new_username w1) (store s1)
                  = Some (mkUser (new_username w1) (new_name w1) (new_email w1)
                            (password_hash env (new_password w1)))).
  { rewrite Hst1. unfold Db.create_user, Db.get_user_by_username in *. rewrite Hfree.
    simpl. apply lookup_insert_eq. }
  split; [done |]. split.
  - intros Hp.
    assert (Hok : Db.verify_user_credentials (password_hash env) (username_input w2)
                    (password_input w2) (store s1) = true).
    { unfold Db.verify_user_credentials, Db.get_user_by_username in *.
      rewrite Hname, Huser, Hp. simpl. by apply bool_decide_eq_true. }
    rewrite <- Hname in Huser.
    destruct (run_login env w2 s1 _ Hup Hanon1 Hl2 Hok Huser) as (Ho & _ & _ & Hss).
    rewrite Hss. repeat split; try done; simpl; congruence.
  - intros Hp.
    assert (Hok : Db.verify_user_credentials (password_hash env) (username_input w2)
                    (password_input w2) (store s1) = false).
    { unfold Db.verify_user_credentials, Db.get_user_by_username in *.
      rewrite Hname, Huser. simpl. apply bool_decide_eq_false. congruence. }
    destruct s1 as [st1 [a us n c0] k]. cbn [store session uuid_calls] in *.
    destruct a as [[|]|]; [done | |].
    all: wp_start; unfold availability_control; rewrite Hup; wp_steps.
    all: unfold login; rewrite Hl2; wp_steps; rewrite Hok; wp_auto; by wp_leaf.
Qed.

Lemma registered_user_can_log_in_witness :
  ss_username
    (session (final (run Sample.env
                       (mkWidgets "carol" "pw" true "" "" "" "" "" false 0 None
                          false false false false None)
                       (final (run Sample.env Sample.register_carol Sample.fresh)))))
  = Some (Some "carol").
Proof.
  destruct (registered_user_can_log_in Sample.env Sample.register_carol
              (mkWidgets "carol" "pw" true "" "" "" "" "" false 0 None
                 false false false false None)
              Sample.fresh)
    as (_ & H & _);
    [reflexivity | by vm_compute | reflexivity | reflexivity | reflexivity
    | by vm_compute | reflexivity | reflexivity |].
  by destruct (H eq_refl) as (_ & _ & Hu & _).
Defined.

(* ===================================================================== *)
(** * Chat identifiers *)
(* ===================================================================== *)

Lemma hex_digit_is_hex (d : N) : is_hex_digit (Py.hex_digit d) = true.
Proof.
  unfold Py.hex_digit.
  destruct (N.to_nat d) as [|[|[|[|[|[|[|[|[|[|[|[|[|[|[|[|i]]]]]]]]]]]]]]]]; try done.
Qed.

Lemma hex_of_is_hex (k : nat) (n : N) : all_chars is_hex_digit (Py.hex_of k n) = true.
Proof. induction k as [|k IH]; simpl; [done |]. by rewrite hex_digit_is_hex, IH. Qed.

Lemma prefix_all_chars (p : ascii → bool) (k : nat) (s : string) :
  all_chars p s = true → all_chars p (Py.prefix k s) = true.
Proof.
  unfold Py.prefix. revert s. induction k as [|k IH]; intros [|c s] H; simpl in *; try done.
  apply andb_true_iff in H as [Hc Hs]. rewrite Hc. simpl. by apply IH.
Qed.

(** X12. A chat identifier drawn for a user is the username, an
    underscore and eight lower-case hexadecimal digits, whatever
    [uuid.uuid4()] returns; drawing it consumes one uuid and changes nothing
    else.  Hence the identifiers drawn for two different users are never
    equal. *)
Theorem new_chat_ids (env : Env) (u : string) (w : World) :
  (∃ h, (new_chat_id env (Some u) w).1 = Val (u +:+ "_" +:+ h)
        ∧ String.length h = 8
        ∧ all_chars is_hex_digit h = true
        ∧ (new_chat_id env (Some u) w).2
          = mkWorld (w_store w) (w_session w) (S (w_uuid w)) (w_log w))
  ∧ (∀ u' w' c c',
       u ≠ u' →
       (new_chat_id env (Some u) w).1 = Val c →
       (new_chat_id env (Some u') w').1 = Val c' →
       c ≠ c').
Proof.
  split.
  - exists (Py.prefix 8 (Py.uuid_hex (uuid4 env (w_uuid w)))).
    split; [done |]. split; [apply uuid_hex8_length |]. split; [|done].
    apply prefix_all_chars, hex_of_is_hex.
  - intros u' w' c c' Hne [= <-] [= <-] Heq. apply Hne.
    apply (wf_chat_id_owner u u' (u +:+ "_" +:+ Py.prefix 8 (Py.uuid_hex (uuid4 env (w_uuid w))))).
    + apply wf_chat_id_new.
    + simpl in Heq. rewrite Heq. apply wf_chat_id_new.
Qed.

Lemma new_chat_ids_witness :
  (new_chat_id Sample.env (Some "alice") (mkWorld empty_store empty_session 0 [])).1
  ≠ (new_chat_id Sample.env (Some "alice_") (mkWorld empty_store empty_session 0 [])).1.
Proof.
  destruct (new_chat_ids Sample.env "alice" (mkWorld empty_store empty_session 0 []))
    as [_ H].
  intros Heq.
  apply (H "alice_" (mkWorld empty_store empty_session 0 []) _ _ ltac:(done) eq_refl eq_refl).
  by injection Heq.
Defined.

(* ===================================================================== *)
(** * What Delete leaves in place *)
(* ===================================================================== *)

Lemma delete_chat_other_owner (c c' : string) (s : Store) :
  c' ≠ c → Db.chat_owner c' (Db.delete_chat c s).2 = Db.chat_owner c' s.
Proof.
  intros Hne. unfold Db.delete_chat, Db.chat_owner.
  destruct (Db.find_chat c (st_chats s)); [|done]. simpl.
  by rewrite find_chat_delete_ne.
Qed.

Lemma delete_chat_listing (c u : string) (s : Store) :
  Db.chat_owner c s ≠ None →
  Db.get_all_chat_ids_for_user u (Db.delete_chat c s).2
  = List.filter (λ e, negb (String.eqb e.1 c)) (Db.get_all_chat_ids_for_user u s).
Proof.
  unfold Db.delete_chat, Db.chat_owner, Db.get_all_chat_ids_for_user.
  destruct (Db.find_chat c (st_chats s)); [|done]. intros _. simpl.
  induction (st_chats s) as [|ch cs IH]; simpl; [done |].
  destruct (String.eqb (chat_chat_id ch) c) eqn:Hc,
           (String.eqb (chat_owner_username ch) u) eqn:Hu; simpl;
    rewrite ?Hc, ?Hu; simpl; by rewrite ?IH.
Qed.

Lemma filter_all {A : Type} (p : A → bool) (l : list A) :
  (∀ x, x ∈ l → p x = true) → List.filter p l = l.
Proof.
  induction l as [|x l IH]; intros H; simpl; [done |].
  rewrite (H x) by apply list_elem_of_here. f_equal. apply IH.
  intros y Hy. apply H. by apply list_elem_of_further.
Qed.

(** X13. Delete removes the chat selected in the side bar and nothing
    else: the accounts are untouched, every other chat keeps its owner and
    its messages, the list of the user is the former list without the
    selected chat, in the same order, and the lists of the other users are
    unchanged. *)
Theorem delete_spares_the_other_chats (env : Env) (w : Widgets) (s : State) (u c : string) :
  app_is_down env = false → authenticated_as u (session s) → wf_store (store s) →
  save_name_btn w = false → delete_chat_btn w = true →
  selected_chat u w (store s) = Some c →
  let s' := store (final (run env w s)) in
  st_users s' = st_users (store s)
  ∧ (∀ c', c' ≠ c →
       Db.chat_owner c' s' = Db.chat_owner c' (store s)
       ∧ Db.chat_messages c' s' = Db.chat_messages c' (store s))
  ∧ Db.get_all_chat_ids_for_user u s'
    = List.filter (λ e, negb (String.eqb e.1 c)) (Db.get_all_chat_ids_for_user u (store s))
  ∧ (∀ u', u' ≠ u →
       Db.get_all_chat_ids_for_user u' s' = Db.get_all_chat_ids_for_user u' (store s)).
Proof.
  intros Hup Hauth Hwf Hsave Hdel Hsel s'. subst s'.
  destruct (run_delete env w s u c Hup Hauth Hwf Hsave Hdel Hsel) as (_ & -> & _).
  pose proof (selected_owned _ _ _ _ Hwf Hsel) as Ho.
  split; [apply delete_chat_users |].
  split; [intros c' Hne; split;
          [by apply delete_chat_other_owner | by apply delete_chat_other_messages] |].
  split; [apply delete_chat_listing; congruence |].
  intros u' Hne. rewrite delete_chat_listing by congruence.
  apply filter_all. intros [c' n] Hin. simpl.
  apply negb_true_iff, String.eqb_neq. intros ->.
  apply list_elem_of_lookup in Hin as [i Hi].
  assert (Hc : (Db.get_all_chat_ids_for_user u' (store s)).*1 !! i = Some c)
    by (by rewrite list_lookup_fmap, Hi).
  destruct (listed_owned _ _ _ _ Hwf Hc) as [Ho' _]. congruence.
Qed.

Lemma delete_spares_the_other_chats_witness :
  Db.get_all_chat_ids_for_user "alice"
    (store (final (run Sample.env Sample.press_delete Sample.chatting)))
  = List.filter (λ e, negb (String.eqb e.1 "alice_00000001"))
      (Db.get_all_chat_ids_for_user "alice" (store Sample.chatting)).
Proof.
  apply (delete_spares_the_other_chats Sample.env Sample.press_delete Sample.chatting
           "alice" "alice_00000001"); try reflexivity; try (by vm_compute).
  apply wf_two_chats.
Defined.

(* ===================================================================== *)
(** * A message and its answer, stored and shown *)
(* ===================================================================== *)

Lemma insert_message_listing (u c r m u' : string) (s : Store) :
  Db.chat_owner c s = Some u →
  Db.get_all_chat_ids_for_user u' (Db.insert_message u c r m s).2
  = Db.get_all_chat_ids_for_user u' s.
Proof.
  intros Ho. unfold Db.insert_message. rewrite Ho, String.eqb_refl. done.
Qed.

(** The page of a chat on which nothing is pressed or submitted. *)
Lemma run_quiet_page (env : Env) (w : Widgets) (s : State) (u c : string) :
  app_is_down env = false → authenticated_as u (session s) → quiet w →
  wf_store (store s) →
  selected_chat u w (store s) = Some c →
  ss_chat_id (session s) = Some (Some c) →
  let e := run env w s in
  outcome e = Done ∧ final e = s
  ∧ shown_messages (trace e) = Db.last_n 10 (Db.chat_messages c (store s)).
Proof.
  intros Hup (Ha & Hu & Hn) (Hq1 & Hq2 & Hq3 & Hq4 & Hq5 & Hq6 & Hq7) Hwf Hsel Hc e. subst e.
  destruct s as [st0 [a us n c0] k].
  cbn [store session uuid_calls ss_authenticated ss_username ss_name ss_chat_id] in *.
  destruct n as [n|]; [|done]. subst a us c0.
  wp_start. wp_auto. all: wp_leaf.
  all: try congruence.
  all: known Hsel.
  all: selected_chat_facts Hwf.
  all: try match goal with H : _ !! _ = Some ?x |- _ => assert (x = c) as -> by congruence end.
  all: try (match goal with
            | H : _ && negb (bool_decide (?a = ?a)) = true |- _ =>
                rewrite bool_decide_eq_true_2, andb_false_r in H by done; discriminate H
            end).
  all: split; [done |]; split; [done |].
  all: by read_page.
Qed.

(** X14. A message that is answered is stored and shown as it was
    written.  When an execution of the page of a user who has submitted a
    non-empty message ends normally, the agent has answered from a memory of
    the last three messages of the selected chat; that chat is the active
    chat and holds its former messages followed by the message and the
    answer; the page shows the last ten former messages followed by the
    two.  Any later page of the same chat on which nothing is pressed
    changes nothing and shows the last ten messages of the extended
    history. *)
Theorem answered_message_is_stored_and_shown (env : Env) (w : Widgets) (s : State)
    (u x : string) :
  wf_store (store s) → authenticated_as u (session s) →
  outcome (run env w s) = Done →
  chat_input w = Some x → x ≠ "" →
  ∃ c a,
    let e := run env w s in
    let history := Db.chat_messages c (store s) in
    selected_chat u w (store s) = Some c
    ∧ agent_invoke env (agent_executor (map to_langchain (Db.last_n 3 history))) x = Some a
    ∧ session (final e) = with_chat_id (session s) (Some c)
    ∧ Db.chat_messages c (store (final e))
      = (history ++ [("user", x); ("assistant", a)])%list
    ∧ shown_messages (trace e)
      = (Db.last_n 10 history ++ [("user", x); ("assistant", a)])%list
    ∧ ∀ w', quiet w' → chosen_idx w' = chosen_idx w →
        let e' := run env w' (final e) in
        outcome e' = Done ∧ final e' = final e
        ∧ shown_messages (trace e')
          = Db.last_n 10 (history ++ [("user", x); ("assistant", a)])%list.
Proof.
  intros Hwf Hauth Ho Hin Hx.
  assert (Hup : app_is_down env = false).
  { destruct (app_is_down env) eqn:Hd; [|done].
    by rewrite (run_down env w s Hd) in Ho. }
  assert (H1 : ∃ c a,
    selected_chat u w (store s) = Some c
    ∧ Db.chat_owner c (store s) = Some u
    ∧ agent_invoke env
        (agent_executor (map to_langchain (Db.last_n 3 (Db.chat_messages c (store s))))) x
      = Some a
    ∧ final (run env w s)
      = mkState (Db.insert_message u c "assistant" a
                   (Db.insert_message u c "user" x (store s)).2).2
                (with_chat_id (session s) (Some c)) (uuid_calls s)
    ∧ shown_messages (trace (run env w s))
      = (Db.last_n 10 (Db.chat_messages c (store s))
         ++ [("user", x); ("assistant", a)])%list).
  { clear Hup. destruct Hauth as (Ha & Hu & Hn). revert Ho.
    destruct s as [st0 [a us n c0] k].
    cbn [store session uuid_calls ss_authenticated ss_username ss_name ss_chat_id] in *.
    destruct n as [n|]; [|done]. subst a us.
    wp_start. wp_auto. all: wp_leaf.
    all: try (intros [=]; fail).
    all: try congruence.
    all: selected_chat_facts Hwf.
    all: intros _.
    all: match goal with
         | H : Some ?y = Some ?z, Hz : ?z ≠ EmptyString |- _ =>
             let Hy := fresh in assert (Hy : y = z) by congruence; clear H; subst y
         end.
    all: try (match goal with
              | H : Py.truthy ?z = false, Hz : ?z ≠ EmptyString |- _ => by destruct z
              end).
    all: eexists _, _; split; [eassumption |]; split; [eassumption |].
    all: split; [eassumption |]; split; [reflexivity |].
    all: by read_page. }
  destruct H1 as (c & a & Hsel & Hown & Hag & Hfin & Hshown).
  exists c, a. cbn zeta. rewrite Hfin. cbn [session store].
  split; [done |]. split; [done |]. split; [done |].
  assert (Hmsgs : Db.chat_messages c
            (Db.insert_message u c "assistant" a
               (Db.insert_message u c "user" x (store s)).2).2
          = (Db.chat_messages c (store s) ++ [("user", x); ("assistant", a)])%list).
  { rewrite chat_messages_insert by (by apply chat_owner_insert_message).
    rewrite chat_messages_insert by done. by rewrite <- app_assoc. }
  split; [done |]. split; [done |].
  intros w' Hq Hidx. rewrite <- Hmsgs.
  set (s1 := mkState _ _ _).
  assert (Hs1 : store s1
                = (Db.insert_message u c "assistant" a
                     (Db.insert_message u c "user" x (store s)).2).2) by done.
  rewrite <- Hs1.
  apply (run_quiet_page env w' s1 u c); try done.
  - rewrite Hs1. apply wf_insert_message.
    + apply wf_insert_message; [done | congruence].
    + intros H. by rewrite (chat_owner_insert_message _ _ _ _ _ _ _ Hown) in H.
  - rewrite Hs1. unfold selected_chat in *.
    rewrite insert_message_listing by (by apply chat_owner_insert_message).
    rewrite insert_message_listing by done. by rewrite Hidx.
Qed.

Lemma answered_message_is_stored_and_shown_witness :
  ∃ c a,
    Db.chat_messages c (store (final (run Sample.env (Sample.say "hi") Sample.chatting)))
    = (Db.chat_messages c (store Sample.chatting) ++ [("user", "hi"); ("assistant", a)])%list.
Proof.
  destruct (answered_message_is_stored_and_shown Sample.env (Sample.say "hi")
              Sample.chatting "alice" "hi")
    as (c & a & _ & _ & _ & H & _);
    [apply wf_two_chats | by vm_compute | by vm_compute | reflexivity | done |].
  by exists c, a.
Defined.

(* ===================================================================== *)
(** * The values of APP_STATUS *)
(* ===================================================================== *)

Lemma upper_ascii_O (c : ascii) :
  Py.upper_ascii c = "O"%char ↔ (c = "o" ∨ c = "O")%char.
Proof.
  destruct c as [[] [] [] [] [] [] [] []]; vm_compute;
    (split; [intros H; first [discriminate H | by left | by right]
            | intros [H | H]; first [discriminate H | reflexivity]]).
Qed.

Lemma upper_ascii_N (c : ascii) :
  Py.upper_ascii c = "N"%char ↔ (c = "n" ∨ c = "N")%char.
Proof.
  destruct c as [[] [] [] [] [] [] [] []]; vm_compute;
    (split; [intros H; first [discriminate H | by left | by right]
            | intros [H | H]; first [discriminate H | reflexivity]]).
Qed.

Lemma upper_ON (s : string) :
  Py.upper s = "ON" ↔
  ∃ c1 c2, s = String c1 (String c2 "")
           ∧ (c1 = "o" ∨ c1 = "O")%char ∧ (c2 = "n" ∨ c2 = "N")%char.
Proof.
  split.
  - destruct s as [|c1 [|c2 [|c3 s]]]; simpl; try discriminate.
    intros [= H1 H2]. exists c1, c2. split; [done |].
    split; [by apply upper_ascii_O | by apply upper_ascii_N].
  - intros (c1 & c2 & -> & H1 & H2). simpl.
    apply upper_ascii_O in H1 as ->. by apply upper_ascii_N in H2 as ->.
Qed.

Lemma append_cons (c : ascii) (l t : string) :
  String c l +:+ t = String c (l +:+ t).
Proof. reflexivity. Qed.

Lemma append_empty (t : string) : "" +:+ t = t.
Proof. reflexivity. Qed.

Lemma lstrip_spec (s : string) :
  ∃ l, s = l +:+ Py.lstrip s ∧ all_chars Py.is_space l = true.
Proof.
  induction s as [|c s (l & Hl & Hs)]; simpl; [by exists "" |].
  destruct (Py.is_space c) eqn:Hc.
  - exists (String c l). simpl. by rewrite append_cons, Hc, Hs, <- Hl.
  - by exists "".
Qed.

Lemma rstrip_spec (s : string) :
  ∃ r, s = Py.rstrip s +:+ r ∧ all_chars Py.is_space r = true.
Proof.
  induction s as [|c s (r & Hr & Hs)]; simpl; [by exists "" |].
  destruct (Py.rstrip s) as [|c' t] eqn:Ht.
  - rewrite append_empty in Hr. subst s. destruct (Py.is_space c) eqn:Hc.
    + exists (String c r). simpl. by rewrite Hc, Hs.
    + by exists r.
  - exists r. by rewrite append_cons, <- Hr.
Qed.

Lemma lstrip_app_space (l t : string) :
  all_chars Py.is_space l = true → Py.lstrip (l +:+ t) = Py.lstrip t.
Proof.
  induction l as [|c l IH]; simpl; [done |].
  intros H. apply andb_true_iff in H as [Hc H]. rewrite ?append_cons. simpl.
  rewrite Hc. by apply IH.
Qed.

Lemma rstrip_space (r : string) :
  all_chars Py.is_space r = true → Py.rstrip r = "".
Proof.
  induction r as [|c r IH]; simpl; [done |].
  intros H. apply andb_true_iff in H as [-> H]. by rewrite IH.
Qed.

Lemma strip_two (l r : string) (c1 c2 : ascii) :
  all_chars Py.is_space l = true → all_chars Py.is_space r = true →
  Py.is_space c1 = false → Py.is_space c2 = false →
  Py.strip (l +:+ String c1 (String c2 r)) = String c1 (String c2 "").
Proof.
  intros Hl Hr H1 H2. unfold Py.strip. rewrite lstrip_app_space by done.
  simpl. rewrite H1. simpl. by rewrite (rstrip_space r Hr), H2.
Qed.

(** X15. The values of APP_STATUS that keep the app up.  When the
    variable is not set the app is up.  When it is set, to a value made of
    ASCII characters, the app is up exactly when the value is the word ON,
    in upper or lower case or a mix of them, with white space and nothing
    else before and after it: the empty value and any other word take the
    app down. *)
Theorem app_is_up_iff (env : Env) :
  (environ_app_status env = None → app_is_down env = false)
  ∧ (∀ v, environ_app_status env = Some v →
          all_chars is_ascii v = true →
          (app_is_down env = false ↔
           ∃ l c1 c2 r,
             v = l +:+ String c1 (String c2 r)
             ∧ all_chars Py.is_space l = true ∧ all_chars Py.is_space r = true
             ∧ (c1 = "o" ∨ c1 = "O")%char ∧ (c2 = "n" ∨ c2 = "N")%char)).
Proof.
  unfold app_is_down, APP_STATUS. split; [by intros -> |].
  intros v -> _. rewrite negb_false_iff, String.eqb_eq, upper_ON. split.
  - intros (c1 & c2 & Hs & H1 & H2).
    destruct (lstrip_spec v) as (l & Hl & Hsl).
    destruct (rstrip_spec (Py.lstrip v)) as (r & Hr & Hsr).
    unfold Py.strip in Hs. rewrite Hs in Hr. rewrite !append_cons, append_empty in Hr.
    exists l, c1, c2, r. by rewrite <- Hr.
  - intros (l & c1 & c2 & r & -> & Hl & Hr & H1 & H2).
    exists c1, c2. split; [|done].
    apply strip_two; try done.
    + by destruct H1 as [-> | ->].
    + by destruct H2 as [-> | ->].
Qed.

Lemma app_is_up_iff_witness :
  app_is_down (mkEnv (Some " oN
") (uuid4 Sample.env) (password_hash Sample.env) (agent_invoke Sample.env)) = false.
Proof.
  destruct (app_is_up_iff (mkEnv (Some " oN
") (uuid4 Sample.env) (password_hash Sample.env) (agent_invoke Sample.env)))
    as [_ H].
  apply (H " oN
" eq_refl eq_refl).
  exists " ", "o"%char, "N"%char, "
". repeat split; auto.
Defined.

(* ===================================================================== *)
(** * The labels of the side bar *)
(* ===================================================================== *)

Lemma prefix_app (k : nat) (s t : string) :
  (k ≤ String.length s)%nat → Py.prefix k (s +:+ t) = Py.prefix k s.
Proof.
  unfold Py.prefix. revert s.
  induction k as [|k IH]; intros [|c s] Hk; simpl in *; try done; try lia.
  - by destruct t.
  - f_equal. apply IH. lia.
Qed.

Lemma prefix_all (k : nat) (s : string) :
  (String.length s ≤ k)%nat → Py.prefix k s = s.
Proof.
  unfold Py.prefix. revert s.
  induction k as [|k IH]; intros [|c s] Hk; simpl in *; try done; try lia.
  f_equal. apply IH. lia.
Qed.

(** X16. The label of a chat in the side bar does not always tell the
    chats of a user apart.  For a user whose (ASCII) username has at least
    fourteen characters, all the chats without a name carry the same label,
    the first fourteen characters of the username; with at least eight
    characters, all the chats that carry the same name have the same label.
    A username of at most five characters is short enough for the label of a
    chat without a name to be its whole identifier, so that different chats
    have different labels. *)
Theorem chat_labels_of_a_user (u c c' n : string) :
  all_chars is_ascii u = true →
  wf_chat_id u c → wf_chat_id u c' →
  ((14 ≤ String.length u)%nat →
     chat_label (c, None) = Py.prefix 14 u
     ∧ chat_label (c, None) = chat_label (c', None))
  ∧ ((8 ≤ String.length u)%nat → Py.truthy n = true →
     chat_label (c, Some n) = n +:+ " (" +:+ Py.prefix 8 u +:+ ")"
     ∧ chat_label (c, Some n) = chat_label (c', Some n))
  ∧ ((String.length u ≤ 5)%nat →
     chat_label (c, None) = c
     ∧ (chat_label (c, None) = chat_label (c', None) → c = c')).
Proof.
  intros _ (h & Hh & ->) (h' & Hh' & ->). unfold chat_label.
  split; [|split].
  - intros Hu. by rewrite !prefix_app.
  - intros Hu ->. by rewrite !prefix_app.
  - intros Hu.
    rewrite !prefix_all by (rewrite !string_length_app; simpl; lia). by split.
Qed.

Lemma chat_labels_of_a_user_witness :
  chat_label ("alexander_2024_0000002a", None)
  = chat_label ("alexander_2024_0000002b", None).
Proof.
  destruct (chat_labels_of_a_user "alexander_2024" "alexander_2024_0000002a"
              "alexander_2024_0000002b" "" eq_refl) as [H _].
  - by exists "0000002a".
  - by exists "0000002b".
  - by destruct H as [_ H]; [simpl; lia |].
Defined.
